(** * STM32 flash low-level driver (flash.c): model and properties

    The driver is embedded function by function.  Integers are [Z] with the
    wrap-around of [uint32_t] written out; the HAL is an external state machine
    that answers every call; the driver state is the initialisation flag, the
    hardware state and the chronological list of HAL calls made so far. *)

From Stdlib Require Import ZArith List Bool Lia.
Import ListNotations.
Local Open Scope Z_scope.

(** ** Unsigned 32-bit arithmetic *)

Definition UINT32_MAX : Z := 4294967295.

Definition uint32 (z : Z) : Prop := 0 <= z <= UINT32_MAX.

(** Reduction of an integer to [uint32_t]. *)
Definition u32 (z : Z) : Z := z mod 4294967296.

Definition add32 (a b : Z) : Z := u32 (a + b).
Definition sub32 (a b : Z) : Z := u32 (a - b).

(** Unsigned division; the divisor is a page size, never zero in a valid
    configuration. *)
Definition div32 (a b : Z) : Z := a / b.

(** ** Configuration (flash_cfg.h, flash.h and the device header)

    These constants come from headers outside flash.c, so they are fields
    of a configuration.  [FLASH_CFG_ASSERT_EN] is the effective value after
    the [#ifndef DEBUG] override. *)

Record flash_cfg : Type := {
  FLASH_CFG_PAGE_SIZE_BYTE    : Z;
  FLASH_CFG_START_ADDR        : Z;
  FLASH_CFG_SIZE_BYTE         : Z;
  FLASH_CFG_ASSERT_EN         : bool;
  FLASH_CFG_DUAL_BANK_MODE_EN : bool;
  FLASH_CFG_BANK1_START_ADDR  : Z;
  FLASH_CFG_BANK2_START_ADDR  : Z;
  FLASH_BASE                  : Z;
  FLASH_PAGE_NB               : Z;
  eFLASH_OK                   : Z;
  eFLASH_ERROR                : Z
}.

(** A configuration whose constants are [uint32_t] values, with a page size
    that can be divided by and two distinct status codes. *)
Record cfg_ok (cfg : flash_cfg) : Prop := {
  page_size_pos   : 0 < FLASH_CFG_PAGE_SIZE_BYTE cfg;
  page_size_u32   : uint32 (FLASH_CFG_PAGE_SIZE_BYTE cfg);
  start_addr_u32  : uint32 (FLASH_CFG_START_ADDR cfg);
  size_byte_u32   : uint32 (FLASH_CFG_SIZE_BYTE cfg);
  bank1_u32       : uint32 (FLASH_CFG_BANK1_START_ADDR cfg);
  bank2_u32       : uint32 (FLASH_CFG_BANK2_START_ADDR cfg);
  flash_base_u32  : uint32 (FLASH_BASE cfg);
  page_nb_u32     : uint32 (FLASH_PAGE_NB cfg);
  status_distinct : eFLASH_OK cfg <> eFLASH_ERROR cfg
}.

(** ** HAL constants (stm32g4xx_hal_def.h, stm32g4xx_hal_flash.h) *)

Definition HAL_OK : Z := 0.
Definition RESET : Z := 0.
Definition FLASH_TYPEERASE_PAGES : Z := 0.
Definition FLASH_TYPEERASE_MASSERASE : Z := 1.
Definition FLASH_BANK_1 : Z := 1.
Definition FLASH_BANK_2 : Z := 2.
Definition FLASH_TYPEPROGRAM_DOUBLEWORD : Z := 0.

(** C's [false] converted to [flash_status_t]. *)
Definition C_false : Z := 0.

Record FLASH_EraseInitTypeDef : Type := {
  TypeErase : Z;
  Banks     : Z;
  Page      : Z;
  NbPages   : Z
}.

(** The initialiser [{0}]. *)
Definition erase_init_zero : FLASH_EraseInitTypeDef :=
  {| TypeErase := 0; Banks := 0; Page := 0; NbPages := 0 |}.

(** ** Dual-bank data (flash.c:40-55, 74-78) *)

Record flash_bank_data_t : Type := {
  addr : Z;
  size : Z
}.

Definition bank_data_zero : flash_bank_data_t := {| addr := 0; size := 0 |}.

Definition eFLASH_BANK_1 : Z := 0.
Definition eFLASH_BANK_2 : Z := 1.
Definition eFLASH_BANK_NUM_OF : Z := 2.

(** The values of [bank] in [for ( bank = 0; bank < eFLASH_BANK_NUM_OF;
    bank++ )] (flash.c:209). *)
Definition bank_indexes : list Z := [eFLASH_BANK_1; eFLASH_BANK_2].

Definition gu32_flash_base (cfg : flash_cfg) (bank : Z) : Z :=
  if bank =? eFLASH_BANK_1 then FLASH_CFG_BANK1_START_ADDR cfg
  else FLASH_CFG_BANK2_START_ADDR cfg.

(** ** flash_count_page (flash.c:106-118) *)

Definition flash_count_page (cfg : flash_cfg) (addr size : Z) : Z :=
  let start_sector_num := div32 addr (FLASH_CFG_PAGE_SIZE_BYTE cfg) in
  let end_sector_num :=
    div32 (sub32 (add32 addr size) 1) (FLASH_CFG_PAGE_SIZE_BYTE cfg) in
  add32 (sub32 end_sector_num start_sector_num) 1.

(** The inline range test of the three entry points
    (flash.c:376, 426, 466; the same expression is asserted just before). *)
Definition flash_region_check (cfg : flash_cfg) (addr size : Z) : bool :=
  (FLASH_CFG_START_ADDR cfg <=? addr) && (size <=? FLASH_CFG_SIZE_BYTE cfg).

(** First part of flash_erase_dual_bank (flash.c:177-206): the array
    [bank_data], indexed by bank. *)
Definition split_bank_data (cfg : flash_cfg) (a s : Z) : list flash_bank_data_t :=
  if a <? FLASH_CFG_BANK2_START_ADDR cfg then
    if add32 a s <? FLASH_CFG_BANK2_START_ADDR cfg then
      [ {| addr := a; size := s |}; bank_data_zero ]
    else
      let size1 := sub32 (FLASH_CFG_BANK2_START_ADDR cfg) a in
      [ {| addr := a; size := size1 |};
        {| addr := FLASH_CFG_BANK2_START_ADDR cfg; size := sub32 s size1 |} ]
  else
    [ bank_data_zero; {| addr := a; size := s |} ].

(** The set-up of the erase descriptor inside the bank loop
    (flash.c:214-233).  The descriptor is declared outside the loop, so its
    [Page] and [NbPages] survive from one bank to the next. *)
Definition setup_bank_erase (cfg : flash_cfg) (bank : Z)
    (bd : flash_bank_data_t) (flash_erase : FLASH_EraseInitTypeDef)
    : FLASH_EraseInitTypeDef :=
  let start_page :=
    div32 (sub32 (addr bd) (gu32_flash_base cfg bank))
          (FLASH_CFG_PAGE_SIZE_BYTE cfg) in
  let num_of_pages := flash_count_page cfg (addr bd) (size bd) in
  let type_erase :=
    if num_of_pages =? FLASH_PAGE_NB cfg
    then FLASH_TYPEERASE_MASSERASE else FLASH_TYPEERASE_PAGES in
  let banks := if bank =? eFLASH_BANK_1 then FLASH_BANK_1 else FLASH_BANK_2 in
  if FLASH_TYPEERASE_PAGES =? type_erase then
    {| TypeErase := type_erase; Banks := banks;
       Page := start_page; NbPages := num_of_pages |}
  else
    {| TypeErase := type_erase; Banks := banks;
       Page := Page flash_erase; NbPages := NbPages flash_erase |}.

(** The descriptor of flash_erase_single_bank (flash.c:137-149). *)
Definition setup_single_erase (cfg : flash_cfg) (a s : Z)
    : FLASH_EraseInitTypeDef :=
  {| TypeErase := FLASH_TYPEERASE_PAGES;
     Banks     := FLASH_BANK_1;
     Page      := div32 (sub32 a (FLASH_BASE cfg)) (FLASH_CFG_PAGE_SIZE_BYTE cfg);
     NbPages   := flash_count_page cfg a s |}.

(** ** The HAL as an external state machine

    Every HAL function or register access used by flash.c is a [hal_call];
    the hardware answers with an integer (a [HAL_StatusTypeDef], a flag value
    or the word read) and moves to a new hardware state. *)

Inductive hal_call : Type :=
| HAL_RCC_FLASH_CLK_ENABLE
| HAL_RCC_FLASH_CLK_DISABLE
| HAL_FLASH_GET_FLAG_BSY
| HAL_FLASH_Unlock
| HAL_FLASH_Lock
| HAL_FLASHEx_Erase (pEraseInit : FLASH_EraseInitTypeDef)
| HAL_FLASH_Program (TypeProgram Address Data : Z)
| FLASH_READ_WORD (Address : Z).

Class FlashHal : Type := {
  hw : Type;
  hal_exec : hal_call -> hw -> Z * hw
}.

(** A pointer is [None] when it is null. *)
Definition is_non_null {A : Type} (p : option A) : bool :=
  match p with Some _ => true | None => false end.

(** The bytes behind a non-null pointer. *)
Definition deref (p : option (Z -> Z)) : Z -> Z :=
  match p with Some data => data | None => fun _ => 0 end.

Section Driver.

Context {H : FlashHal}.

(** The driver's state: the static flag [gb_is_init] (flash.c:66), the
    hardware, and the HAL calls made so far, oldest first. *)
Record flash_state : Type := {
  gb_is_init : bool;
  hw_state   : hw;
  hal_trace  : list hal_call
}.

(** How a call of a driver function ends. *)
Inductive outcome (A : Type) : Type :=
| Done (a : A) (st : flash_state)
| Assert_failed (st : flash_state)
| Out_of_fuel.

Arguments Done {A} a st.
Arguments Assert_failed {A} st.
Arguments Out_of_fuel {A}.

Definition M (A : Type) : Type := flash_state -> outcome A.

Definition ret {A : Type} (a : A) : M A := fun st => Done a st.

Definition bind {A B : Type} (m : M A) (k : A -> M B) : M B :=
  fun st =>
    match m st with
    | Done a st' => k a st'
    | Assert_failed st' => Assert_failed st'
    | Out_of_fuel => Out_of_fuel
    end.

Notation "x <- m ;; k" := (bind m (fun x => k))
  (at level 61, m at next level, right associativity).
Notation "m ;;; k" := (bind m (fun _ => k))
  (at level 61, right associativity).

(** What the hardware answers to call [c] in state [st], and the state the
    call leaves. *)
Definition hal_answer (c : hal_call) (st : flash_state) : Z :=
  fst (hal_exec c (hw_state st)).

Definition hal_next (c : hal_call) (st : flash_state) : flash_state :=
  {| gb_is_init := gb_is_init st;
     hw_state   := snd (hal_exec c (hw_state st));
     hal_trace  := hal_trace st ++ [c] |}.

(** One HAL call: the hardware answers, the call is recorded. *)
Definition hal (c : hal_call) : M Z :=
  fun st => Done (hal_answer c st) (hal_next c st).

Definition get_is_init : M bool := fun st => Done (gb_is_init st) st.

Definition set_is_init (b : bool) : M unit :=
  fun st => Done tt {| gb_is_init := b;
                       hw_state   := hw_state st;
                       hal_trace  := hal_trace st |}.

(** Modelled from the spec: the expansion [PROJ_CFG_ASSERT] of
    [FLASH_ASSERT] lives in a project header that is not part of the
    sources.  The spec calls a violated assertion fatal when assertions are
    enabled (it aborts the process) and says that it is compiled out
    otherwise (flash_cfg.h: [{ ; }]). *)
Definition FLASH_ASSERT (cfg : flash_cfg) (x : bool) : M unit :=
  fun st =>
    if FLASH_CFG_ASSERT_EN cfg && negb x then Assert_failed st else Done tt st.

(** *** flash_erase_single_bank (flash.c:131-158) *)

Definition flash_erase_single_bank (cfg : flash_cfg) (a s : Z) : M Z :=
  let status := eFLASH_OK cfg in
  let num_of_pages := flash_count_page cfg a s in
  FLASH_ASSERT cfg (num_of_pages <=? FLASH_PAGE_NB cfg) ;;;
  r <- hal (HAL_FLASHEx_Erase (setup_single_erase cfg a s)) ;;
  ret (if r =? HAL_OK then status else C_false).

(** *** flash_erase_dual_bank (flash.c:173-244)

    [erase_banks] is the [for] loop over the banks still to visit; it
    carries the erase descriptor and the status from one bank to the next. *)

Fixpoint erase_banks (cfg : flash_cfg) (bank_data : list flash_bank_data_t)
    (banks : list Z) (flash_erase : FLASH_EraseInitTypeDef) (status : Z)
    : M Z :=
  match banks with
  | [] => ret status
  | bank :: rest =>
      let bd := nth (Z.to_nat bank) bank_data bank_data_zero in
      if 0 <? size bd then
        FLASH_ASSERT cfg
          (flash_count_page cfg (addr bd) (size bd) <=? FLASH_PAGE_NB cfg) ;;;
        let flash_erase' := setup_bank_erase cfg bank bd flash_erase in
        r <- hal (HAL_FLASHEx_Erase flash_erase') ;;
        erase_banks cfg bank_data rest flash_erase'
          (if r =? HAL_OK then status else C_false)
      else
        erase_banks cfg bank_data rest flash_erase status
  end.

Definition flash_erase_dual_bank (cfg : flash_cfg) (a s : Z) : M Z :=
  erase_banks cfg (split_bank_data cfg a s)
    bank_indexes erase_init_zero (eFLASH_OK cfg).

(** *** flash_init (flash.c:270-295) *)

(** [while(__HAL_FLASH_GET_FLAG(FLASH_FLAG_BSY) != RESET);] with a bound on
    the number of polls. *)
Fixpoint wait_while_busy (fuel : nat) : M unit :=
  match fuel with
  | O => fun _ => Out_of_fuel
  | S fuel' =>
      flag <- hal HAL_FLASH_GET_FLAG_BSY ;;
      if flag =? RESET then ret tt else wait_while_busy fuel'
  end.

Definition flash_init (fuel : nat) (cfg : flash_cfg) : M Z :=
  let status := eFLASH_OK cfg in
  is_init <- get_is_init ;;
  if negb is_init then
    hal HAL_RCC_FLASH_CLK_ENABLE ;;;
    wait_while_busy fuel ;;;
    r <- hal HAL_FLASH_Unlock ;;
    if r =? HAL_OK then
      set_is_init true ;;; ret status
    else
      ret (eFLASH_ERROR cfg)
  else
    ret status.

(** *** flash_deinit (flash.c:304-326) *)

Definition flash_deinit (cfg : flash_cfg) : M Z :=
  let status := eFLASH_OK cfg in
  is_init <- get_is_init ;;
  if is_init then
    r <- hal HAL_FLASH_Lock ;;
    if r =? HAL_OK then
      hal HAL_RCC_FLASH_CLK_DISABLE ;;;
      set_is_init false ;;; ret status
    else
      ret (eFLASH_ERROR cfg)
  else
    ret status.

(** *** flash_is_init (flash.c:336-354)

    [p_is_init] is [None] for a null pointer and otherwise the content of
    the pointed cell; the second component of the result is the cell after
    the call. *)

Definition flash_is_init (cfg : flash_cfg) (p_is_init : option bool)
    : M (Z * option bool) :=
  FLASH_ASSERT cfg (is_non_null p_is_init) ;;;
  match p_is_init with
  | Some _ => is_init <- get_is_init ;; ret (eFLASH_OK cfg, Some is_init)
  | None => ret (eFLASH_ERROR cfg, None)
  end.

(** *** flash_write (flash.c:366-405)

    [p_data] is [None] for a null pointer and otherwise the bytes found at
    each offset from the pointer. *)

(** [memcpy] of [n] bytes at offset [off] into an integer (little endian). *)
Fixpoint load_le (p_data : Z -> Z) (off : Z) (n : nat) : Z :=
  match n with
  | O => 0
  | S n' => p_data off + 256 * load_le p_data (off + 1) n'
  end.

(** The [for] loop of flash_write, from the current [dword]. *)
Fixpoint write_dwords (fuel : nat) (cfg : flash_cfg) (a s : Z)
    (p_data : Z -> Z) (dword : Z) (status : Z) : M Z :=
  if dword <? s then
    match fuel with
    | O => fun _ => Out_of_fuel
    | S fuel' =>
        let flash_addr := add32 a dword in
        let flash_data := load_le p_data dword 8 in
        r <- hal (HAL_FLASH_Program FLASH_TYPEPROGRAM_DOUBLEWORD
                    flash_addr flash_data) ;;
        if r =? HAL_OK then
          write_dwords fuel' cfg a s p_data (add32 dword 8) status
        else
          ret (eFLASH_ERROR cfg)
    end
  else
    ret status.

Definition flash_write (fuel : nat) (cfg : flash_cfg) (a s : Z)
    (p_data : option (Z -> Z)) : M Z :=
  let status := eFLASH_OK cfg in
  is_init <- get_is_init ;;
  FLASH_ASSERT cfg is_init ;;;
  FLASH_ASSERT cfg (flash_region_check cfg a s) ;;;
  FLASH_ASSERT cfg (is_non_null p_data) ;;;
  if is_init && flash_region_check cfg a s && is_non_null p_data then
    write_dwords fuel cfg a s (deref p_data) 0 status
  else
    ret (eFLASH_ERROR cfg).

(** *** flash_read (flash.c:417-447) *)

(** [memcpy] of the four bytes of [v] to offset [off] of the buffer. *)
Definition store_le4 (p_data : Z -> Z) (off v : Z) : Z -> Z :=
  fun i =>
    if (off <=? i) && (i <? off + 4)
    then (v / 256 ^ (i - off)) mod 256
    else p_data i.

(** The [for] loop of flash_read, from the current [word]; it returns the
    buffer it has filled. *)
Fixpoint read_words (fuel : nat) (a s : Z) (p_data : Z -> Z) (word : Z)
    : M (Z -> Z) :=
  if word <? s then
    match fuel with
    | O => fun _ => Out_of_fuel
    | S fuel' =>
        let flash_addr := add32 a word in
        flash_data <- hal (FLASH_READ_WORD flash_addr) ;;
        read_words fuel' a s (store_le4 p_data word flash_data) (add32 word 4)
    end
  else
    ret p_data.

Definition flash_read (fuel : nat) (cfg : flash_cfg) (a s : Z)
    (p_data : option (Z -> Z)) : M (Z * option (Z -> Z)) :=
  let status := eFLASH_OK cfg in
  is_init <- get_is_init ;;
  FLASH_ASSERT cfg is_init ;;;
  FLASH_ASSERT cfg (flash_region_check cfg a s) ;;;
  FLASH_ASSERT cfg (is_non_null p_data) ;;;
  if is_init && flash_region_check cfg a s && is_non_null p_data then
    buf <- read_words fuel a s (deref p_data) 0 ;;
    ret (status, Some buf)
  else
    ret (eFLASH_ERROR cfg, p_data).

(** *** flash_erase (flash.c:458-487) *)

Definition flash_erase (cfg : flash_cfg) (a s : Z) : M Z :=
  is_init <- get_is_init ;;
  FLASH_ASSERT cfg is_init ;;;
  FLASH_ASSERT cfg (flash_region_check cfg a s) ;;;
  if is_init && flash_region_check cfg a s then
    if FLASH_CFG_DUAL_BANK_MODE_EN cfg
    then flash_erase_dual_bank cfg a s
    else flash_erase_single_bank cfg a s
  else
    ret (eFLASH_ERROR cfg).

End Driver.

Arguments Done {H A} a st.
Arguments Assert_failed {H A} st.
Arguments Out_of_fuel {H A}.

(** ** Example configurations and hardware *)

(** A single-bank part with 2 KiB pages; the user region is the one of the
    configuration template (one page at 0x0801F000). *)
Definition cfg_single : flash_cfg :=
  {| FLASH_CFG_PAGE_SIZE_BYTE    := 2048;
     FLASH_CFG_START_ADDR        := 134344704;
     FLASH_CFG_SIZE_BYTE         := 2048;
     FLASH_CFG_ASSERT_EN         := false;
     FLASH_CFG_DUAL_BANK_MODE_EN := false;
     FLASH_CFG_BANK1_START_ADDR  := 134217728;
     FLASH_CFG_BANK2_START_ADDR  := 134479872;
     FLASH_BASE                  := 134217728;
     FLASH_PAGE_NB               := 64;
     eFLASH_OK                   := 0;
     eFLASH_ERROR                := 1 |}.

(** The same single-bank part with the whole flash (64 pages) as user
    region. *)
Definition cfg_single_all : flash_cfg :=
  {| FLASH_CFG_PAGE_SIZE_BYTE    := 2048;
     FLASH_CFG_START_ADDR        := 134217728;
     FLASH_CFG_SIZE_BYTE         := 131072;
     FLASH_CFG_ASSERT_EN         := false;
     FLASH_CFG_DUAL_BANK_MODE_EN := false;
     FLASH_CFG_BANK1_START_ADDR  := 134217728;
     FLASH_CFG_BANK2_START_ADDR  := 134479872;
     FLASH_BASE                  := 134217728;
     FLASH_PAGE_NB               := 64;
     eFLASH_OK                   := 0;
     eFLASH_ERROR                := 1 |}.

(** A dual-bank part: two banks of 128 pages of 2 KiB at 0x08000000 and
    0x08040000; the user region is the whole flash. *)
Definition cfg_dual : flash_cfg :=
  {| FLASH_CFG_PAGE_SIZE_BYTE    := 2048;
     FLASH_CFG_START_ADDR        := 134217728;
     FLASH_CFG_SIZE_BYTE         := 524288;
     FLASH_CFG_ASSERT_EN         := false;
     FLASH_CFG_DUAL_BANK_MODE_EN := true;
     FLASH_CFG_BANK1_START_ADDR  := 134217728;
     FLASH_CFG_BANK2_START_ADDR  := 134479872;
     FLASH_BASE                  := 134217728;
     FLASH_PAGE_NB               := 128;
     eFLASH_OK                   := 0;
     eFLASH_ERROR                := 1 |}.

(** The same configuration built with or without assertions. *)
Definition with_assert (en : bool) (cfg : flash_cfg) : flash_cfg :=
  {| FLASH_CFG_PAGE_SIZE_BYTE    := FLASH_CFG_PAGE_SIZE_BYTE cfg;
     FLASH_CFG_START_ADDR        := FLASH_CFG_START_ADDR cfg;
     FLASH_CFG_SIZE_BYTE         := FLASH_CFG_SIZE_BYTE cfg;
     FLASH_CFG_ASSERT_EN         := en;
     FLASH_CFG_DUAL_BANK_MODE_EN := FLASH_CFG_DUAL_BANK_MODE_EN cfg;
     FLASH_CFG_BANK1_START_ADDR  := FLASH_CFG_BANK1_START_ADDR cfg;
     FLASH_CFG_BANK2_START_ADDR  := FLASH_CFG_BANK2_START_ADDR cfg;
     FLASH_BASE                  := FLASH_BASE cfg;
     FLASH_PAGE_NB               := FLASH_PAGE_NB cfg;
     eFLASH_OK                   := eFLASH_OK cfg;
     eFLASH_ERROR                := eFLASH_ERROR cfg |}.

(** Hardware that answers from a script: the head of the list is the answer
    to the next call, whatever the call; an exhausted script answers 0
    ([HAL_OK], [RESET]). *)
Definition scripted_hal : FlashHal :=
  {| hw := list Z;
     hal_exec := fun _ script =>
       match script with
       | [] => (0, [])
       | r :: rest => (r, rest)
       end |}.

(** The driver right after reset ([gb_is_init = false]) or already
    initialised, on scripted hardware. *)
Definition scripted_state (is_init : bool) (script : list Z)
    : @flash_state scripted_hal :=
  @Build_flash_state scripted_hal is_init script [].

(** Whether the capacity assertion [num_of_pages <= FLASH_PAGE_NB] lets the
    erase of a bank go on (flash.c:143, 220). *)
Definition bank_fits (cfg : flash_cfg) (bd : flash_bank_data_t) : Prop :=
  FLASH_CFG_ASSERT_EN cfg = false \/
  flash_count_page cfg (addr bd) (size bd) <= FLASH_PAGE_NB cfg.

(** The banks among [banks] that have something to erase (flash.c:212,
    [bank_data[bank].size > 0]), in the order of the loop. *)
Definition banks_with_work (bank_data : list flash_bank_data_t)
    (banks : list Z) : list Z :=
  filter (fun bank => 0 <? size (nth (Z.to_nat bank) bank_data bank_data_zero))
         banks.

(** What the erase request [e] submitted for [bank] must be: addressed to
    that bank, a mass erase exactly when the page count of that bank's
    entry equals FLASH_PAGE_NB, and otherwise a page erase with the start
    page (counted from the base of that bank) and the page count of that
    entry. *)
Definition bank_request_ok (cfg : flash_cfg)
    (bank_data : list flash_bank_data_t) (bank : Z)
    (e : FLASH_EraseInitTypeDef) : Prop :=
  let bd := nth (Z.to_nat bank) bank_data bank_data_zero in
  let num_of_pages := flash_count_page cfg (addr bd) (size bd) in
  Banks e = (if bank =? eFLASH_BANK_1 then FLASH_BANK_1 else FLASH_BANK_2) /\
  (TypeErase e = FLASH_TYPEERASE_MASSERASE <->
   num_of_pages = FLASH_PAGE_NB cfg) /\
  (num_of_pages <> FLASH_PAGE_NB cfg ->
   TypeErase e = FLASH_TYPEERASE_PAGES /\
   Page e = div32 (sub32 (addr bd) (gu32_flash_base cfg bank))
                  (FLASH_CFG_PAGE_SIZE_BYTE cfg) /\
   NbPages e = num_of_pages).

(** ** The earlier single-file driver

    The repository also holds an earlier flash.c without the dual-bank
    code; its flash_count_page, flash_init, flash_deinit, flash_is_init,
    flash_write and flash_read are the ones above, and its flash_erase
    (lines 291-329 of that file) has the single-bank erase inline. *)

Module SingleFile.
Section Driver.

Context {H : FlashHal}.

Definition flash_erase (cfg : flash_cfg) (a s : Z) : M Z :=
  let status := eFLASH_OK cfg in
  bind get_is_init (fun is_init =>
  bind (FLASH_ASSERT cfg is_init) (fun _ =>
  bind (FLASH_ASSERT cfg (flash_region_check cfg a s)) (fun _ =>
  if is_init && flash_region_check cfg a s then
    let start_page :=
      div32 (sub32 a (FLASH_BASE cfg)) (FLASH_CFG_PAGE_SIZE_BYTE cfg) in
    let num_of_pages := flash_count_page cfg a s in
    bind (FLASH_ASSERT cfg (num_of_pages <=? FLASH_PAGE_NB cfg)) (fun _ =>
    let flash_erase :=
      {| TypeErase := FLASH_TYPEERASE_PAGES;
         Banks     := FLASH_BANK_1;
         Page      := start_page;
         NbPages   := num_of_pages |} in
    bind (hal (HAL_FLASHEx_Erase flash_erase)) (fun r =>
    ret (if r =? HAL_OK then status else C_false)))
  else
    ret (eFLASH_ERROR cfg)))).

End Driver.
End SingleFile.

(** ** Vocabulary for the statements about runs *)

(** The state in which a call ends, when it ends. *)
Definition outcome_state {H : FlashHal} {A : Type} (o : outcome A)
    : option flash_state :=
  match o with
  | Done _ st => Some st
  | Assert_failed st => Some st
  | Out_of_fuel => None
  end.

(** The hardware state after a sequence of HAL calls. *)
Definition hw_run {H : FlashHal} (calls : list hal_call) (h : hw) : hw :=
  fold_left (fun h' c => snd (hal_exec c h')) calls h.

(** The call that programs double word [k] of a write at [a], and the call
    that reads word [k] of a read at [a]. *)
Definition program_call (a : Z) (data : Z -> Z) (k : nat) : hal_call :=
  HAL_FLASH_Program FLASH_TYPEPROGRAM_DOUBLEWORD
    (add32 a (8 * Z.of_nat k)) (load_le data (8 * Z.of_nat k) 8).

Definition read_call (a : Z) (k : nat) : hal_call :=
  FLASH_READ_WORD (add32 a (4 * Z.of_nat k)).

(** The calls for the [count] double words, or words, from number
    [first] on. *)
Definition program_calls (a : Z) (data : Z -> Z) (first count : nat)
    : list hal_call :=
  map (program_call a data) (seq first count).

Definition read_calls (a : Z) (first count : nat) : list hal_call :=
  map (read_call a) (seq first count).

(** What the hardware, started in state [h], answers to call number
    [first + k] once the calls [first], ..., [first + k - 1] have been
    made. *)
Definition program_answer {H : FlashHal} (a : Z) (data : Z -> Z) (h : hw)
    (first k : nat) : Z :=
  fst (hal_exec (program_call a data (first + k))
         (hw_run (program_calls a data first k) h)).

Definition read_answer {H : FlashHal} (a : Z) (h : hw) (first k : nat) : Z :=
  fst (hal_exec (read_call a (first + k)) (hw_run (read_calls a first k) h)).

(** Kinds of HAL calls. *)
Definition is_erase_call (c : hal_call) : Prop :=
  match c with HAL_FLASHEx_Erase _ => True | _ => False end.

Definition is_program_call (c : hal_call) : Prop :=
  match c with
  | HAL_FLASH_Program t _ _ => t = FLASH_TYPEPROGRAM_DOUBLEWORD
  | _ => False
  end.

Definition is_read_call (c : hal_call) : Prop :=
  match c with FLASH_READ_WORD _ => True | _ => False end.

Definition is_control_call (c : hal_call) : Prop :=
  match c with
  | HAL_RCC_FLASH_CLK_ENABLE | HAL_RCC_FLASH_CLK_DISABLE
  | HAL_FLASH_GET_FLAG_BSY | HAL_FLASH_Unlock | HAL_FLASH_Lock => True
  | _ => False
  end.

(** A computation is confined to the calls [P] when, however it ends, it
    has only added calls satisfying [P] to the record of HAL calls; with
    [keep], it has also left the initialisation flag as it was. *)
Definition confined {H : FlashHal} {A : Type} (keep : bool)
    (P : hal_call -> Prop) (m : M A) : Prop :=
  forall st st' : flash_state,
    outcome_state (m st) = Some st' ->
    (keep = true -> gb_is_init st' = gb_is_init st) /\
    exists calls : list hal_call,
      hal_trace st' = hal_trace st ++ calls /\ Forall P calls.

(** * Properties *)

(** ** Unsigned arithmetic *)

Lemma u32_small (z : Z) : uint32 z -> u32 z = z.
Proof.
  unfold uint32, UINT32_MAX, u32. intros Hz. apply Z.mod_small. lia.
Qed.

Lemma u32_range (z : Z) : uint32 (u32 z).
Proof.
  unfold uint32, UINT32_MAX, u32.
  pose proof (Z.mod_pos_bound z 4294967296 ltac:(lia)). lia.
Qed.

Lemma u32_idem_add (x y : Z) : u32 (u32 x + y) = u32 (x + y).
Proof. unfold u32. apply Zplus_mod_idemp_l. Qed.

Lemma u32_idem_sub (x y : Z) : u32 (u32 x - y) = u32 (x - y).
Proof. unfold u32. apply Zminus_mod_idemp_l. Qed.

(** The page count as one reduction of the integer formula, the end page
    being the one the code computes. *)
Lemma flash_count_page_u32 (cfg : flash_cfg) (a s : Z) :
  flash_count_page cfg a s =
  u32 (u32 (a + s - 1) / FLASH_CFG_PAGE_SIZE_BYTE cfg
       - a / FLASH_CFG_PAGE_SIZE_BYTE cfg + 1).
Proof.
  unfold flash_count_page, add32, sub32, div32.
  now rewrite u32_idem_add, u32_idem_sub.
Qed.

(** Without wrap-around the page count is the integer formula. *)
Lemma flash_count_page_exact (cfg : flash_cfg) (a s : Z) :
  0 < FLASH_CFG_PAGE_SIZE_BYTE cfg ->
  uint32 a -> uint32 s -> 1 <= s -> a + s - 1 <= UINT32_MAX ->
  flash_count_page cfg a s =
  (a + s - 1) / FLASH_CFG_PAGE_SIZE_BYTE cfg
  - a / FLASH_CFG_PAGE_SIZE_BYTE cfg + 1.
Proof.
  intros HP Ha Hs Hs1 Hfit.
  rewrite flash_count_page_u32.
  set (P := FLASH_CFG_PAGE_SIZE_BYTE cfg) in *.
  assert (He : u32 (a + s - 1) = a + s - 1).
  { apply u32_small. unfold uint32 in *. lia. }
  rewrite He. apply u32_small.
  unfold uint32, UINT32_MAX in *.
  assert (Hmono : a / P <= (a + s - 1) / P) by (apply Z.div_le_mono; lia).
  assert (Hstart : 0 <= a / P) by (apply Z.div_pos; lia).
  split; [lia|].
  destruct (Z.eq_dec P 1) as [HP1|HP1].
  - rewrite HP1, !Z.div_1_r. lia.
  - assert (Hend : (a + s - 1) / P <= (a + s - 1) / 2).
    { apply Z.div_le_compat_l; lia. }
    assert ((a + s - 1) / 2 <= 4294967295 / 2) by (apply Z.div_le_mono; lia).
    change (4294967295 / 2) with 2147483647 in *. lia.
Qed.

(** A range inside page [k] has its first and last byte in page [k]. *)
Lemma page_of_range (P a s k : Z) :
  0 < P -> 1 <= s -> k * P <= a -> a + s <= (k + 1) * P ->
  a / P = k /\ (a + s - 1) / P = k.
Proof.
  intros HP Hs Hlo Hhi. split.
  - symmetry. apply (Z.div_unique a P k (a - k * P)); lia.
  - symmetry. apply (Z.div_unique (a + s - 1) P k (a + s - 1 - k * P)); lia.
Qed.

(** C5, the claim as stated fails: for addr = 0xFFFFFFFF and size = 2 the
    sum addr + size - 1 wraps to 0, so the end page is 0 and the function
    returns 0xFFE00002, where end_page - start_page + 1 with
    end_page = (addr + size - 1) / page_size is 2.  The request passes the
    guard of flash_erase, which submits that page count. *)
Lemma flash_count_page_formula_wraps :
  uint32 4294967295 /\ uint32 2 /\ 1 <= 2 /\
  (4294967295 + 2 - 1) / FLASH_CFG_PAGE_SIZE_BYTE cfg_single
    - 4294967295 / FLASH_CFG_PAGE_SIZE_BYTE cfg_single + 1 = 2 /\
  flash_count_page cfg_single 4294967295 2 = 4292870146 /\
  flash_erase cfg_single 4294967295 2 (scripted_state true []) =
  Done (eFLASH_OK cfg_single)
    (@Build_flash_state scripted_hal true []
       [ HAL_FLASHEx_Erase
           {| TypeErase := FLASH_TYPEERASE_PAGES; Banks := FLASH_BANK_1;
              Page := 2031615; NbPages := 4292870146 |} ]).
Proof.
  unfold uint32, UINT32_MAX.
  repeat split; try lia; vm_compute; congruence.
Qed.

(** C5 (amended): for every addr and every size >= 1 such that
    addr + size - 1 does not exceed 0xFFFFFFFF (the range does not wrap
    around the 32-bit address space), flash_count_page returns exactly
    end_page - start_page + 1 with end_page = (addr + size - 1) / page_size
    and start_page = addr / page_size; consequently a range that lies
    inside one page counts one page. *)
Theorem flash_count_page_end_minus_start (cfg : flash_cfg) (a s : Z) :
  0 < FLASH_CFG_PAGE_SIZE_BYTE cfg ->
  uint32 a -> uint32 s -> 1 <= s ->
  a + s - 1 <= UINT32_MAX ->
  let start_page := a / FLASH_CFG_PAGE_SIZE_BYTE cfg in
  let end_page := (a + s - 1) / FLASH_CFG_PAGE_SIZE_BYTE cfg in
  flash_count_page cfg a s = end_page - start_page + 1 /\
  (end_page = start_page -> flash_count_page cfg a s = 1) /\
  (forall k : Z,
     k * FLASH_CFG_PAGE_SIZE_BYTE cfg <= a ->
     a + s <= (k + 1) * FLASH_CFG_PAGE_SIZE_BYTE cfg ->
     flash_count_page cfg a s = 1).
Proof.
  intros HP Ha Hs Hs1 Hfit start_page end_page.
  assert (Hform : flash_count_page cfg a s = end_page - start_page + 1)
    by (now apply flash_count_page_exact).
  split; [exact Hform|]. split.
  - intros Heq. rewrite Hform, Heq. lia.
  - intros k Hlo Hhi. rewrite Hform. unfold start_page, end_page.
    destruct (page_of_range _ a s k HP Hs1 Hlo Hhi) as [-> ->]. lia.
Qed.

Lemma flash_count_page_end_minus_start_witness :
  flash_count_page cfg_single 134344704 2048 = 1.
Proof.
  destruct (flash_count_page_end_minus_start cfg_single 134344704 2048
              ltac:(simpl; lia)
              ltac:(unfold uint32, UINT32_MAX; lia)
              ltac:(unfold uint32, UINT32_MAX; lia)
              ltac:(lia)
              ltac:(unfold UINT32_MAX; lia))
    as (_ & _ & Hpage).
  apply (Hpage 65598); simpl; lia.
Defined.

(** C6, the claim as stated fails: a page-aligned address near the top of
    the address space with a size of two pages makes addr + size - 1 wrap,
    and the count is not size / P. *)
Lemma flash_count_page_aligned_wraps :
  uint32 4294965248 /\ uint32 4096 /\
  4294965248 mod FLASH_CFG_PAGE_SIZE_BYTE cfg_single = 0 /\
  4096 mod FLASH_CFG_PAGE_SIZE_BYTE cfg_single = 0 /\
  0 < 4096 /\
  flash_count_page cfg_single 4294965248 4096 = 4292870146 /\
  flash_count_page cfg_single 4294965248 4096
    <> 4096 / FLASH_CFG_PAGE_SIZE_BYTE cfg_single.
Proof.
  unfold uint32, UINT32_MAX. repeat split; try (vm_compute; congruence).
Qed.

(** C6 (amended): for a page-aligned addr and a size that is a positive
    multiple of the page size P, flash_count_page returns size / P provided
    the range does not wrap, that is addr + size - 1 <= 0xFFFFFFFF. *)
Theorem flash_count_page_aligned (cfg : flash_cfg) (a s : Z) :
  0 < FLASH_CFG_PAGE_SIZE_BYTE cfg ->
  uint32 a -> uint32 s ->
  a mod FLASH_CFG_PAGE_SIZE_BYTE cfg = 0 ->
  s mod FLASH_CFG_PAGE_SIZE_BYTE cfg = 0 ->
  0 < s ->
  a + s - 1 <= UINT32_MAX ->
  flash_count_page cfg a s = s / FLASH_CFG_PAGE_SIZE_BYTE cfg.
Proof.
  intros HP Ha Hs Hwa Hws Hpos Hfit.
  rewrite flash_count_page_exact by (assumption || lia).
  set (P := FLASH_CFG_PAGE_SIZE_BYTE cfg) in *.
  pose proof (Z.div_mod a P ltac:(lia)) as Ea.
  pose proof (Z.div_mod s P ltac:(lia)) as Es.
  rewrite Hwa in Ea. rewrite Hws in Es.
  assert (Hq : 1 <= s / P).
  { destruct (Z_lt_le_dec (s / P) 1) as [Hlt|]; [|assumption].
    assert (s / P <= 0) by lia. nia. }
  assert (Hend : (a + s - 1) / P = a / P + s / P - 1).
  { symmetry. apply (Z.div_unique _ P _ (P - 1)); [lia|nia]. }
  rewrite Hend. lia.
Qed.

Lemma flash_count_page_aligned_witness :
  flash_count_page cfg_single 134344704 4096 = 2.
Proof.
  rewrite (flash_count_page_aligned cfg_single 134344704 4096);
    try reflexivity; unfold uint32, UINT32_MAX; simpl; lia.
Defined.


(** ** Running the driver *)

Section Runs.

Context {H : FlashHal}.

Lemma FLASH_ASSERT_pass (cfg : flash_cfg) (x : bool) (st : flash_state) :
  FLASH_CFG_ASSERT_EN cfg = false \/ x = true ->
  FLASH_ASSERT cfg x st = Done tt st.
Proof.
  unfold FLASH_ASSERT. intros [-> | ->]; [reflexivity|].
  now rewrite andb_false_r.
Qed.

Lemma FLASH_ASSERT_fail (cfg : flash_cfg) (st : flash_state) :
  FLASH_CFG_ASSERT_EN cfg = true ->
  FLASH_ASSERT cfg false st = Assert_failed st.
Proof. unfold FLASH_ASSERT. now intros ->. Qed.

Lemma bank_fits_assert (cfg : flash_cfg) (bd : flash_bank_data_t)
    (st : flash_state) :
  bank_fits cfg bd ->
  FLASH_ASSERT cfg
    (flash_count_page cfg (addr bd) (size bd) <=? FLASH_PAGE_NB cfg) st
  = Done tt st.
Proof.
  intros [Hoff | Hle]; apply FLASH_ASSERT_pass; [now left|right].
  now apply Z.leb_le.
Qed.

(** The single-bank erase is one HAL erase; its answer decides the status. *)
Lemma erase_single_bank_run (cfg : flash_cfg) (a s : Z) (st : flash_state) :
  bank_fits cfg {| addr := a; size := s |} ->
  let call := HAL_FLASHEx_Erase (setup_single_erase cfg a s) in
  flash_erase_single_bank cfg a s st =
  Done (if hal_answer call st =? HAL_OK then eFLASH_OK cfg else C_false)
       (hal_next call st).
Proof.
  intros Hfit call. unfold flash_erase_single_bank, bind.
  pose proof (bank_fits_assert cfg _ st Hfit) as Ha. simpl in Ha.
  now rewrite Ha.
Qed.

(** One round of the bank loop on a bank that has something to erase. *)
Lemma erase_banks_visit (cfg : flash_cfg) (bank_data : list flash_bank_data_t)
    (bank : Z) (rest : list Z) (fe : FLASH_EraseInitTypeDef) (status : Z)
    (st : flash_state) :
  let bd := nth (Z.to_nat bank) bank_data bank_data_zero in
  let call := HAL_FLASHEx_Erase (setup_bank_erase cfg bank bd fe) in
  0 < size bd -> bank_fits cfg bd ->
  erase_banks cfg bank_data (bank :: rest) fe status st =
  erase_banks cfg bank_data rest (setup_bank_erase cfg bank bd fe)
    (if hal_answer call st =? HAL_OK then status else C_false)
    (hal_next call st).
Proof.
  intros bd call Hpos Hfit. cbn [erase_banks]. fold bd.
  apply Z.ltb_lt in Hpos. rewrite Hpos. unfold bind.
  now rewrite (bank_fits_assert cfg bd st Hfit).
Qed.

(** One round of the bank loop on a bank with nothing to erase. *)
Lemma erase_banks_skip (cfg : flash_cfg) (bank_data : list flash_bank_data_t)
    (bank : Z) (rest : list Z) (fe : FLASH_EraseInitTypeDef) (status : Z)
    (st : flash_state) :
  size (nth (Z.to_nat bank) bank_data bank_data_zero) <= 0 ->
  erase_banks cfg bank_data (bank :: rest) fe status st =
  erase_banks cfg bank_data rest fe status st.
Proof.
  intros Hz. cbn [erase_banks].
  apply Z.ltb_ge in Hz. now rewrite Hz.
Qed.

(** A dual-bank erase with work in both banks: both erases are submitted,
    bank 1 first, whatever the hardware answers. *)
Lemma erase_dual_bank_both (cfg : flash_cfg) (a s : Z)
    (bd1 bd2 : flash_bank_data_t) (st : flash_state) :
  split_bank_data cfg a s = [bd1; bd2] ->
  0 < size bd1 -> 0 < size bd2 ->
  bank_fits cfg bd1 -> bank_fits cfg bd2 ->
  let e1 := setup_bank_erase cfg eFLASH_BANK_1 bd1 erase_init_zero in
  let e2 := setup_bank_erase cfg eFLASH_BANK_2 bd2 e1 in
  let st1 := hal_next (HAL_FLASHEx_Erase e1) st in
  let st2 := hal_next (HAL_FLASHEx_Erase e2) st1 in
  let status1 :=
    if hal_answer (HAL_FLASHEx_Erase e1) st =? HAL_OK
    then eFLASH_OK cfg else C_false in
  flash_erase_dual_bank cfg a s st =
  Done (if hal_answer (HAL_FLASHEx_Erase e2) st1 =? HAL_OK
        then status1 else C_false) st2.
Proof.
  intros Hsplit H1 H2 Hf1 Hf2 e1 e2 st1 st2 status1.
  unfold flash_erase_dual_bank, bank_indexes. rewrite Hsplit.
  rewrite erase_banks_visit by assumption.
  rewrite erase_banks_visit by assumption.
  reflexivity.
Qed.

End Runs.

(** ** The split of a range over the two banks *)


Section Erase.

Context {H : FlashHal}.


End Erase.


(** ** A failed erase in a dual-bank erase *)

(** C2, the code at the failing input: a dual-bank erase across the bank
    boundary whose erase of bank 1 is answered with an error (1, not
    HAL_OK).  The claim has the sequence stop there; the bank loop
    (flash.c:209-241) has no exit on failure, unlike the loop of
    flash_write, so the erase of bank 2 is submitted all the same, and the
    failure is recorded as C false (0), which is eFLASH_OK in this
    configuration, not as eFLASH_ERROR. *)
Lemma erase_dual_bank_goes_on_after_failure :
  hal_answer
    (HAL_FLASHEx_Erase
       {| TypeErase := FLASH_TYPEERASE_PAGES; Banks := FLASH_BANK_1;
          Page := 127; NbPages := 1 |})
    (scripted_state true [1; 0]) <> HAL_OK /\
  flash_erase cfg_dual 134477824 4096 (scripted_state true [1; 0]) =
  Done C_false
    (@Build_flash_state scripted_hal true []
       [ HAL_FLASHEx_Erase
           {| TypeErase := FLASH_TYPEERASE_PAGES; Banks := FLASH_BANK_1;
              Page := 127; NbPages := 1 |};
         HAL_FLASHEx_Erase
           {| TypeErase := FLASH_TYPEERASE_PAGES; Banks := FLASH_BANK_2;
              Page := 0; NbPages := 1 |} ]) /\
  C_false = eFLASH_OK cfg_dual.
Proof.
  split; [vm_compute; discriminate|].
  split; vm_compute; reflexivity.
Qed.

(** ** Page erase or mass erase *)

(** C3, the claim as stated fails in the single-bank configuration: the
    range covers all 64 pages of the bank, so the page count equals
    FLASH_PAGE_NB, and the request is a page erase, not a mass erase. *)
Lemma erase_single_bank_never_mass_erase :
  flash_count_page cfg_single_all 134217728 131072
    = FLASH_PAGE_NB cfg_single_all /\
  flash_erase cfg_single_all 134217728 131072 (scripted_state true []) =
  Done (eFLASH_OK cfg_single_all)
    (@Build_flash_state scripted_hal true []
       [ HAL_FLASHEx_Erase
           {| TypeErase := FLASH_TYPEERASE_PAGES; Banks := FLASH_BANK_1;
              Page := 0; NbPages := 64 |} ]) /\
  FLASH_TYPEERASE_PAGES <> FLASH_TYPEERASE_MASSERASE.
Proof.
  repeat split; vm_compute; congruence.
Qed.

(** The erase descriptor of the bank loop: mass erase exactly when the page
    count is the page number of a bank, else a page erase of the computed
    pages. *)
Lemma setup_bank_erase_type (cfg : flash_cfg) (bank : Z)
    (bd : flash_bank_data_t) (fe : FLASH_EraseInitTypeDef) :
  let e := setup_bank_erase cfg bank bd fe in
  let num_of_pages := flash_count_page cfg (addr bd) (size bd) in
  (TypeErase e = FLASH_TYPEERASE_MASSERASE <->
   num_of_pages = FLASH_PAGE_NB cfg) /\
  (num_of_pages <> FLASH_PAGE_NB cfg ->
   TypeErase e = FLASH_TYPEERASE_PAGES /\
   Page e = div32 (sub32 (addr bd) (gu32_flash_base cfg bank))
                  (FLASH_CFG_PAGE_SIZE_BYTE cfg) /\
   NbPages e = num_of_pages).
Proof.
  intros e n. unfold e, setup_bank_erase. fold n.
  destruct (Z.eqb_spec n (FLASH_PAGE_NB cfg)) as [Heq | Hne]; cbn.
  - split; [tauto | intros Hc; contradiction].
  - split; [|intros _; repeat split].
    split; [discriminate | intros Hc; contradiction].
Qed.

Section EraseType.

Context {H : FlashHal}.

Lemma setup_bank_erase_ok (cfg : flash_cfg)
    (bank_data : list flash_bank_data_t) (bank : Z)
    (fe : FLASH_EraseInitTypeDef) :
  bank_request_ok cfg bank_data bank
    (setup_bank_erase cfg bank
       (nth (Z.to_nat bank) bank_data bank_data_zero) fe).
Proof.
  unfold bank_request_ok. cbv zeta. split.
  - unfold setup_bank_erase.
    destruct (FLASH_TYPEERASE_PAGES =? _); reflexivity.
  - apply setup_bank_erase_type.
Qed.

(** The bank loop submits one erase per visited bank with work, in the
    order of the banks, each as [bank_request_ok] says for its bank. *)
Lemma erase_banks_requests (cfg : flash_cfg)
    (bank_data : list flash_bank_data_t) (banks : list Z) :
  forall (fe : FLASH_EraseInitTypeDef) (status : Z) (st : flash_state)
         (r : Z) (st' : flash_state),
    erase_banks cfg bank_data banks fe status st = Done r st' ->
    exists es : list FLASH_EraseInitTypeDef,
      hal_trace st' = hal_trace st ++ map HAL_FLASHEx_Erase es /\
      Forall2 (bank_request_ok cfg bank_data)
        (banks_with_work bank_data banks) es.
Proof.
  induction banks as [|bank rest IH]; intros fe status st r st' Hrun.
  - cbn in Hrun. unfold ret in Hrun. injection Hrun as _ <-.
    exists []. split; [cbn; now rewrite app_nil_r | constructor].
  - cbn [erase_banks] in Hrun. cbn [banks_with_work filter].
    set (bd := nth (Z.to_nat bank) bank_data bank_data_zero) in *.
    destruct (0 <? size bd) eqn:Hpos.
    + unfold bind at 1 in Hrun.
      destruct (FLASH_ASSERT cfg _ st) as [[] st0 | st0 |] eqn:Hassert;
        try discriminate.
      unfold FLASH_ASSERT in Hassert.
      destruct (FLASH_CFG_ASSERT_EN cfg && _); [discriminate|].
      injection Hassert as <-.
      unfold bind, hal in Hrun.
      apply IH in Hrun. destruct Hrun as (es & Htrace & Hall).
      exists (setup_bank_erase cfg bank bd fe :: es). split.
      * rewrite Htrace. cbn [hal_next hal_trace map].
        now rewrite <- app_assoc.
      * constructor; [apply setup_bank_erase_ok | exact Hall].
    + apply IH in Hrun. exact Hrun.
Qed.

End EraseType.

Section EraseRequests.

Context {H : FlashHal}.

(** C3 (amended): in the dual-bank configuration an erase that returns has
    submitted exactly one request for each bank that has bytes to erase, in
    ascending bank order; the request for a bank is addressed to that bank
    and is a mass erase if and only if the page count computed for that
    bank equals FLASH_PAGE_NB, and otherwise a page erase with that bank's
    start page and page count.  In the single-bank configuration the one
    request is always a page erase of bank 1 with the computed start page
    and page count, also when the count equals FLASH_PAGE_NB. *)
Theorem erase_request_type (cfg : flash_cfg) (a s : Z) (st : flash_state)
    (r : Z) (st' : flash_state) :
  (flash_erase_dual_bank cfg a s st = Done r st' ->
   exists es : list FLASH_EraseInitTypeDef,
     hal_trace st' = hal_trace st ++ map HAL_FLASHEx_Erase es /\
     Forall2 (bank_request_ok cfg (split_bank_data cfg a s))
       (banks_with_work (split_bank_data cfg a s)
          [eFLASH_BANK_1; eFLASH_BANK_2])
       es) /\
  (flash_erase_single_bank cfg a s st = Done r st' ->
   exists e : FLASH_EraseInitTypeDef,
     hal_trace st' = hal_trace st ++ [HAL_FLASHEx_Erase e] /\
     TypeErase e = FLASH_TYPEERASE_PAGES /\
     Banks e = FLASH_BANK_1 /\
     Page e = div32 (sub32 a (FLASH_BASE cfg)) (FLASH_CFG_PAGE_SIZE_BYTE cfg) /\
     NbPages e = flash_count_page cfg a s).
Proof.
  split.
  - intros Hrun. unfold flash_erase_dual_bank in Hrun.
    now apply erase_banks_requests in Hrun.
  - intros Hrun. unfold flash_erase_single_bank, bind in Hrun.
    destruct (FLASH_ASSERT cfg _ st) as [[] st0 | st0 |] eqn:Hassert;
      try discriminate.
    unfold FLASH_ASSERT in Hassert.
    destruct (FLASH_CFG_ASSERT_EN cfg && _); [discriminate|].
    injection Hassert as <-.
    unfold hal, ret in Hrun. injection Hrun as _ <-.
    exists (setup_single_erase cfg a s). repeat split.
Qed.

End EraseRequests.

Lemma erase_request_type_witness :
  (exists es : list FLASH_EraseInitTypeDef,
     [ HAL_FLASHEx_Erase
         {| TypeErase := FLASH_TYPEERASE_MASSERASE; Banks := FLASH_BANK_1;
            Page := 0; NbPages := 0 |};
       HAL_FLASHEx_Erase
         {| TypeErase := FLASH_TYPEERASE_PAGES; Banks := FLASH_BANK_2;
            Page := 0; NbPages := 1 |} ]
     = map HAL_FLASHEx_Erase es /\
     Forall2 (bank_request_ok cfg_dual (split_bank_data cfg_dual 134217728 264192))
       [eFLASH_BANK_1; eFLASH_BANK_2] es) /\
  (exists e : FLASH_EraseInitTypeDef,
     [ HAL_FLASHEx_Erase
         {| TypeErase := FLASH_TYPEERASE_PAGES; Banks := FLASH_BANK_1;
            Page := 0; NbPages := 64 |} ]
     = [HAL_FLASHEx_Erase e] /\
     TypeErase e = FLASH_TYPEERASE_PAGES /\ NbPages e = 64).
Proof.
  split.
  - exact (proj1 (@erase_request_type scripted_hal cfg_dual
                    134217728 264192 (scripted_state true [])
                    (eFLASH_OK cfg_dual)
                    (@Build_flash_state scripted_hal true []
                       [ HAL_FLASHEx_Erase
                           {| TypeErase := FLASH_TYPEERASE_MASSERASE;
                              Banks := FLASH_BANK_1;
                              Page := 0; NbPages := 0 |};
                         HAL_FLASHEx_Erase
                           {| TypeErase := FLASH_TYPEERASE_PAGES;
                              Banks := FLASH_BANK_2;
                              Page := 0; NbPages := 1 |} ]))
             eq_refl).
  - destruct (proj2 (@erase_request_type scripted_hal cfg_single_all
                       134217728 131072 (scripted_state true [])
                       (eFLASH_OK cfg_single_all)
                       (@Build_flash_state scripted_hal true []
                          [ HAL_FLASHEx_Erase
                              {| TypeErase := FLASH_TYPEERASE_PAGES;
                                 Banks := FLASH_BANK_1;
                                 Page := 0; NbPages := 64 |} ]))
                eq_refl)
      as (e & Htrace & Htype & _ & _ & Hn).
    exists e. split; [exact Htrace|]. split; [exact Htype | exact Hn].
Defined.

(** ** The guards of the entry points *)

(** C1, the code at the failing input: the user region of the
    configuration is the one page [0x0801F000, 0x0801F800).  The request
    addr = 0x0801F800, size = 0x800 starts at the end of the region, so
    addr + size is past the end and the claim has it rejected; the guard
    only compares addr with the start and size with the region size, accepts
    it, and flash_erase erases page 63, which lies wholly outside the
    region.  Likewise the request addr = 0x0801F001, size = 0x800, which
    ends one byte past the region, is accepted and erases pages 62 and
    63. *)
Lemma region_guard_accepts_outside_region :
  FLASH_CFG_START_ADDR cfg_single + FLASH_CFG_SIZE_BYTE cfg_single
    <= 134346752 /\
  flash_region_check cfg_single 134346752 2048 = true /\
  flash_erase cfg_single 134346752 2048 (scripted_state true []) =
  Done (eFLASH_OK cfg_single)
    (@Build_flash_state scripted_hal true []
       [ HAL_FLASHEx_Erase
           {| TypeErase := FLASH_TYPEERASE_PAGES; Banks := FLASH_BANK_1;
              Page := 63; NbPages := 1 |} ]) /\
  flash_region_check cfg_single 134344705 2048 = true /\
  ~ (134344705 + 2048
     <= FLASH_CFG_START_ADDR cfg_single + FLASH_CFG_SIZE_BYTE cfg_single) /\
  flash_erase cfg_single 134344705 2048 (scripted_state true []) =
  Done (eFLASH_OK cfg_single)
    (@Build_flash_state scripted_hal true []
       [ HAL_FLASHEx_Erase
           {| TypeErase := FLASH_TYPEERASE_PAGES; Banks := FLASH_BANK_1;
              Page := 62; NbPages := 2 |} ]).
Proof.
  repeat split; try (simpl; lia); vm_compute; reflexivity.
Qed.

(** C8, the claim as stated fails in a build with assertions: the call made
    before flash_init stops at the assertion on gb_is_init and returns no
    status. *)
Lemma not_initialised_asserts :
  flash_erase (with_assert true cfg_single) 134344704 2048
    (scripted_state false []) = Assert_failed (scripted_state false []) /\
  flash_write 1 (with_assert true cfg_single) 134344704 8
    (Some (fun _ => 0)) (scripted_state false [])
    = Assert_failed (scripted_state false []) /\
  flash_read 1 (with_assert true cfg_single) 134344704 8
    (Some (fun _ => 0)) (scripted_state false [])
    = Assert_failed (scripted_state false []).
Proof.
  repeat split.
Qed.

Section Guards.

Context {H : FlashHal}.

Lemma flash_region_check_iff (cfg : flash_cfg) (a s : Z) :
  flash_region_check cfg a s = true <->
  FLASH_CFG_START_ADDR cfg <= a /\ s <= FLASH_CFG_SIZE_BYTE cfg.
Proof.
  unfold flash_region_check.
  rewrite andb_true_iff, !Z.leb_le. tauto.
Qed.

(** C8 (amended): a read, write or erase call made before a successful
    flash_init invokes no hardware operation: the state, with its record of
    HAL calls, is left as it was.  Built without assertions the call returns
    eFLASH_ERROR; built with assertions it stops at the failed assertion. *)
Theorem not_initialised_rejected (cfg : flash_cfg) (fuel : nat) (a s : Z)
    (p_data : option (Z -> Z)) (st : flash_state) :
  gb_is_init st = false ->
  (FLASH_CFG_ASSERT_EN cfg = false ->
   flash_erase cfg a s st = Done (eFLASH_ERROR cfg) st /\
   flash_write fuel cfg a s p_data st = Done (eFLASH_ERROR cfg) st /\
   flash_read fuel cfg a s p_data st = Done (eFLASH_ERROR cfg, p_data) st) /\
  (FLASH_CFG_ASSERT_EN cfg = true ->
   flash_erase cfg a s st = Assert_failed st /\
   flash_write fuel cfg a s p_data st = Assert_failed st /\
   flash_read fuel cfg a s p_data st = Assert_failed st).
Proof.
  intros Hinit. split; intros Hen;
    unfold flash_erase, flash_write, flash_read, bind, get_is_init,
      FLASH_ASSERT;
    rewrite Hinit, Hen; repeat split.
Qed.

End Guards.

Lemma not_initialised_rejected_witness :
  flash_erase cfg_single 134344704 2048 (scripted_state false [])
    = Done (eFLASH_ERROR cfg_single) (scripted_state false []) /\
  flash_write 1 cfg_single 134344704 8 (Some (fun _ => 0))
    (scripted_state false [])
    = Done (eFLASH_ERROR cfg_single) (scripted_state false []) /\
  flash_erase (with_assert true cfg_single) 134344704 2048
    (scripted_state false [])
    = Assert_failed (scripted_state false []).
Proof.
  split; [|split].
  - apply (proj1 (@not_initialised_rejected scripted_hal cfg_single 1%nat
                    134344704 2048 (Some (fun _ => 0))
                    (scripted_state false []) eq_refl)).
    reflexivity.
  - apply (proj1 (@not_initialised_rejected scripted_hal cfg_single 1%nat
                    134344704 8 (Some (fun _ => 0))
                    (scripted_state false []) eq_refl)).
    reflexivity.
  - apply (proj2 (@not_initialised_rejected scripted_hal
                    (with_assert true cfg_single) 1%nat
                    134344704 2048 (Some (fun _ => 0))
                    (scripted_state false []) eq_refl)).
    reflexivity.
Defined.

(** ** Initialisation and de-initialisation *)

Section Lifecycle.

Context {H : FlashHal}.

(** Polling the busy flag does not touch the initialisation flag. *)
Lemma wait_while_busy_flag (fuel : nat) :
  forall st st' : flash_state,
    wait_while_busy fuel st = Done tt st' ->
    gb_is_init st' = gb_is_init st.
Proof.
  induction fuel as [|fuel IH]; intros st st' Hrun; [discriminate|].
  cbn [wait_while_busy] in Hrun. unfold bind, hal in Hrun.
  destruct (hal_answer HAL_FLASH_GET_FLAG_BSY st =? RESET).
  - unfold ret in Hrun. injection Hrun as <-. reflexivity.
  - apply IH in Hrun. exact Hrun.
Qed.

(** A wait that ends within [fuel] polls ends the same way with more. *)
Lemma wait_while_busy_more_fuel (fuel : nat) :
  forall (fuel' : nat) (st st' : flash_state),
    (fuel <= fuel')%nat ->
    wait_while_busy fuel st = Done tt st' ->
    wait_while_busy fuel' st = Done tt st'.
Proof.
  induction fuel as [|fuel IH]; intros fuel' st st' Hle Hrun; [discriminate|].
  destruct fuel' as [|fuel']; [lia|].
  cbn [wait_while_busy] in *. unfold bind, hal in *.
  destruct (hal_answer HAL_FLASH_GET_FLAG_BSY st =? RESET);
    [assumption|].
  apply IH; [lia | assumption].
Qed.

(** flash_init on a driver that is not initialised: clock, wait, unlock. *)
Lemma flash_init_run (fuel : nat) (cfg : flash_cfg) (st st2 : flash_state) :
  gb_is_init st = false ->
  wait_while_busy fuel (hal_next HAL_RCC_FLASH_CLK_ENABLE st) = Done tt st2 ->
  flash_init fuel cfg st =
  if hal_answer HAL_FLASH_Unlock st2 =? HAL_OK
  then Done (eFLASH_OK cfg)
         {| gb_is_init := true;
            hw_state := hw_state (hal_next HAL_FLASH_Unlock st2);
            hal_trace := hal_trace (hal_next HAL_FLASH_Unlock st2) |}
  else Done (eFLASH_ERROR cfg) (hal_next HAL_FLASH_Unlock st2).
Proof.
  intros Hinit Hwait.
  unfold flash_init, bind, get_is_init, hal. rewrite Hinit. cbn [negb].
  rewrite Hwait.
  destruct (hal_answer HAL_FLASH_Unlock st2 =? HAL_OK); reflexivity.
Qed.

Lemma flash_init_again (fuel : nat) (cfg : flash_cfg) (st : flash_state) :
  gb_is_init st = true ->
  flash_init fuel cfg st = Done (eFLASH_OK cfg) st.
Proof.
  intros Hinit. unfold flash_init, bind, get_is_init. now rewrite Hinit.
Qed.

Lemma flash_is_init_reads (cfg : flash_cfg) (b : bool) (st : flash_state) :
  flash_is_init cfg (Some b) st
  = Done (eFLASH_OK cfg, Some (gb_is_init st)) st.
Proof.
  unfold flash_is_init, bind, FLASH_ASSERT, get_is_init. cbn.
  now rewrite andb_false_r.
Qed.

(** C7: flash_init is idempotent and flash_deinit does nothing on a driver
    that is not initialised.  With hardware that gets ready and unlocks, the
    first flash_init returns eFLASH_OK (with any bound on the polls that is
    large enough) and sets the flag; a second flash_init
    returns eFLASH_OK, makes no HAL call and leaves the state as it is, and
    flash_is_init reports true.  flash_deinit on a driver that was never
    initialised returns eFLASH_OK, makes no HAL call, and flash_is_init
    reports false. *)
Theorem init_twice_deinit_never (cfg : flash_cfg) (fuel : nat)
    (st st2 : flash_state) :
  (gb_is_init st = false ->
   wait_while_busy fuel (hal_next HAL_RCC_FLASH_CLK_ENABLE st) = Done tt st2 ->
   hal_answer HAL_FLASH_Unlock st2 = HAL_OK ->
   exists st1 : flash_state,
     (forall fuel1 : nat,
        (fuel <= fuel1)%nat ->
        flash_init fuel1 cfg st = Done (eFLASH_OK cfg) st1) /\
     gb_is_init st1 = true /\
     (forall fuel' : nat, flash_init fuel' cfg st1 = Done (eFLASH_OK cfg) st1) /\
     (forall b : bool,
        flash_is_init cfg (Some b) st1 = Done (eFLASH_OK cfg, Some true) st1)) /\
  (gb_is_init st = false ->
   flash_deinit cfg st = Done (eFLASH_OK cfg) st /\
   (forall b : bool,
      flash_is_init cfg (Some b) st = Done (eFLASH_OK cfg, Some false) st)).
Proof.
  split.
  - intros Hinit Hwait Hunlock.
    eexists. split; [|split; [|split]].
    + intros fuel1 Hle.
      rewrite (flash_init_run fuel1 cfg st st2 Hinit
                 (wait_while_busy_more_fuel fuel fuel1 _ _ Hle Hwait)).
      rewrite Hunlock. cbn [Z.eqb HAL_OK]. reflexivity.
    + reflexivity.
    + intros fuel'. now apply flash_init_again.
    + intros b. now rewrite flash_is_init_reads.
  - intros Hinit. split.
    + unfold flash_deinit, bind, get_is_init. now rewrite Hinit.
    + intros b. now rewrite flash_is_init_reads, Hinit.
Qed.

(** C9: a failing hardware operation leaves the initialisation flag as it
    was.  If HAL_FLASH_Unlock fails during flash_init, the call returns
    eFLASH_ERROR and the flag stays false; if HAL_FLASH_Lock fails during
    flash_deinit, the call returns eFLASH_ERROR and the flag stays true. *)
Theorem init_deinit_failure_keeps_flag (cfg : flash_cfg) (fuel : nat)
    (st st2 : flash_state) :
  (gb_is_init st = false ->
   wait_while_busy fuel (hal_next HAL_RCC_FLASH_CLK_ENABLE st) = Done tt st2 ->
   hal_answer HAL_FLASH_Unlock st2 <> HAL_OK ->
   exists st' : flash_state,
     (forall fuel1 : nat,
        (fuel <= fuel1)%nat ->
        flash_init fuel1 cfg st = Done (eFLASH_ERROR cfg) st') /\
     gb_is_init st' = false) /\
  (gb_is_init st = true ->
   hal_answer HAL_FLASH_Lock st <> HAL_OK ->
   exists st' : flash_state,
     flash_deinit cfg st = Done (eFLASH_ERROR cfg) st' /\
     gb_is_init st' = true).
Proof.
  split.
  - intros Hinit Hwait Hunlock.
    apply Z.eqb_neq in Hunlock.
    exists (hal_next HAL_FLASH_Unlock st2). split.
    + intros fuel1 Hle.
      rewrite (flash_init_run fuel1 cfg st st2 Hinit
                 (wait_while_busy_more_fuel fuel fuel1 _ _ Hle Hwait)).
      now rewrite Hunlock.
    + cbn [hal_next gb_is_init].
      rewrite (wait_while_busy_flag fuel _ _ Hwait). exact Hinit.
  - intros Hinit Hlock.
    unfold flash_deinit, bind, get_is_init, hal. rewrite Hinit.
    apply Z.eqb_neq in Hlock. rewrite Hlock.
    eexists. split; [reflexivity|]. exact Hinit.
Qed.

End Lifecycle.

Lemma init_twice_deinit_never_witness :
  (exists st1,
     flash_init 2 cfg_single (scripted_state false [0; 1; 0; 0])
       = Done (eFLASH_OK cfg_single) st1 /\
     flash_init 0 cfg_single st1 = Done (eFLASH_OK cfg_single) st1 /\
     flash_is_init cfg_single (Some false) st1
       = Done (eFLASH_OK cfg_single, Some true) st1) /\
  flash_deinit cfg_single (scripted_state false [])
    = Done (eFLASH_OK cfg_single) (scripted_state false []).
Proof.
  split.
  - destruct (proj1 (@init_twice_deinit_never scripted_hal cfg_single 2%nat
                       (scripted_state false [0; 1; 0; 0])
                       (@Build_flash_state scripted_hal false [0]
                          [HAL_RCC_FLASH_CLK_ENABLE;
                           HAL_FLASH_GET_FLAG_BSY;
                           HAL_FLASH_GET_FLAG_BSY])))
      as (st1 & Hfirst & _ & Hsecond & Hflag).
    + reflexivity.
    + reflexivity.
    + reflexivity.
    + exists st1. split; [apply Hfirst; lia|].
      split; [apply Hsecond | apply Hflag].
  - apply (proj2 (@init_twice_deinit_never scripted_hal cfg_single 0%nat
                    (scripted_state false []) (scripted_state false []))).
    reflexivity.
Defined.

Lemma init_deinit_failure_keeps_flag_witness :
  (exists st',
     flash_init 2 cfg_single (scripted_state false [0; 1; 0; 1])
       = Done (eFLASH_ERROR cfg_single) st' /\
     gb_is_init st' = false) /\
  (exists st',
     flash_deinit cfg_single (scripted_state true [1])
       = Done (eFLASH_ERROR cfg_single) st' /\
     gb_is_init st' = true).
Proof.
  split.
  - destruct (proj1 (@init_deinit_failure_keeps_flag scripted_hal cfg_single
                       2%nat (scripted_state false [0; 1; 0; 1])
                       (@Build_flash_state scripted_hal false [1]
                          [HAL_RCC_FLASH_CLK_ENABLE;
                           HAL_FLASH_GET_FLAG_BSY;
                           HAL_FLASH_GET_FLAG_BSY])))
      as (st' & Hrun & Hflag).
    + reflexivity.
    + reflexivity.
    + vm_compute; discriminate.
    + exists st'. split; [apply Hrun; lia | exact Hflag].
  - apply (proj2 (@init_deinit_failure_keeps_flag scripted_hal cfg_single
                    0%nat (scripted_state true [1])
                    (scripted_state true [1]))).
    + reflexivity.
    + vm_compute; discriminate.
Defined.

(** ** Requests of size zero *)

(** With a size of zero the last-byte address is addr - 1, which wraps only
    at addr = 0. *)
Lemma flash_count_page_zero_size (cfg : flash_cfg) (a : Z) :
  flash_count_page cfg a 0 =
  u32 (u32 (a - 1) / FLASH_CFG_PAGE_SIZE_BYTE cfg
       - a / FLASH_CFG_PAGE_SIZE_BYTE cfg + 1).
Proof.
  rewrite flash_count_page_u32.
  now replace (a + 0 - 1) with (a - 1) by lia.
Qed.

Lemma flash_count_page_zero_size_aligned (cfg : flash_cfg) (a : Z) :
  0 < FLASH_CFG_PAGE_SIZE_BYTE cfg ->
  uint32 a -> 0 < a -> a mod FLASH_CFG_PAGE_SIZE_BYTE cfg = 0 ->
  flash_count_page cfg a 0 = 0.
Proof.
  intros HP Ha Hpos Hal.
  rewrite flash_count_page_zero_size.
  set (P := FLASH_CFG_PAGE_SIZE_BYTE cfg) in *.
  assert (Hm1 : u32 (a - 1) = a - 1).
  { apply u32_small. unfold uint32 in *. lia. }
  rewrite Hm1.
  pose proof (Z.div_mod a P ltac:(lia)) as Ea. rewrite Hal in Ea.
  assert (Hq : 1 <= a / P).
  { destruct (Z_lt_le_dec (a / P) 1) as [Hlt|]; [|assumption].
    assert (a / P <= 0) by lia. nia. }
  assert (Hend : (a - 1) / P = a / P - 1).
  { symmetry. apply (Z.div_unique _ P _ (P - 1)); [lia|nia]. }
  rewrite Hend.
  replace (a / P - 1 - a / P + 1) with 0 by lia. reflexivity.
Qed.

(** C10, the claim as stated fails in the dual-bank build: the zero-size
    request is accepted by the range test, but the bank loop skips a bank
    whose size is 0 (flash.c:212), so flash_count_page is never reached and
    no page count is submitted: the call returns eFLASH_OK with no HAL call
    at all. *)
Lemma zero_size_dual_bank_skips_page_count :
  FLASH_CFG_DUAL_BANK_MODE_EN cfg_dual = true /\
  flash_region_check cfg_dual 134217728 0 = true /\
  split_bank_data cfg_dual 134217728 0 =
    [ {| addr := 134217728; size := 0 |}; bank_data_zero ] /\
  banks_with_work (split_bank_data cfg_dual 134217728 0)
    [eFLASH_BANK_1; eFLASH_BANK_2] = [] /\
  flash_erase cfg_dual 134217728 0 (scripted_state true [])
    = Done (eFLASH_OK cfg_dual) (scripted_state true []).
Proof.
  repeat split.
Qed.

Section ZeroSize.

Context {H : FlashHal}.

Lemma erase_dual_bank_nothing_to_do (cfg : flash_cfg) (a : Z)
    (st : flash_state) :
  uint32 a ->
  flash_erase_dual_bank cfg a 0 st = Done (eFLASH_OK cfg) st.
Proof.
  intros Ha.
  unfold flash_erase_dual_bank, bank_indexes, split_bank_data.
  assert (Hsum : add32 a 0 = a).
  { unfold add32. rewrite Z.add_0_r. now apply u32_small. }
  rewrite Hsum.
  destruct (a <? FLASH_CFG_BANK2_START_ADDR cfg); reflexivity.
Qed.

(** C10 (amended): a zero-size request passes the range test of the entry
    points (0 <= FLASH_CFG_SIZE_BYTE).  In the single-bank build the erase
    then submits the page count that flash_count_page computes from
    addr + 0 - 1 with 32-bit wrap-around: for a page-aligned addr > 0 the
    count is 0; for addr = 0 the subtraction wraps to 2^32 - 1 and the
    count is (2^32 - 1) / page_size + 1 (itself a 32-bit value, which only
    matters for a page size of 1).  In the dual-bank build the zero-size
    erase skips both banks: no page count is computed, no HAL call is made
    and eFLASH_OK is returned. *)
Theorem zero_size_request (cfg : flash_cfg) :
  0 < FLASH_CFG_PAGE_SIZE_BYTE cfg ->
  uint32 (FLASH_CFG_SIZE_BYTE cfg) ->
  (forall a : Z,
     FLASH_CFG_START_ADDR cfg <= a -> flash_region_check cfg a 0 = true) /\
  (forall (a : Z) (st : flash_state),
     FLASH_CFG_DUAL_BANK_MODE_EN cfg = false ->
     gb_is_init st = true ->
     FLASH_CFG_START_ADDR cfg <= a ->
     bank_fits cfg {| addr := a; size := 0 |} ->
     NbPages (setup_single_erase cfg a 0) = flash_count_page cfg a 0 /\
     exists status : Z,
       flash_erase cfg a 0 st
         = Done status
             (hal_next (HAL_FLASHEx_Erase (setup_single_erase cfg a 0)) st)) /\
  (forall (a : Z) (st : flash_state),
     FLASH_CFG_DUAL_BANK_MODE_EN cfg = true ->
     gb_is_init st = true ->
     FLASH_CFG_START_ADDR cfg <= a -> uint32 a ->
     flash_erase cfg a 0 st = Done (eFLASH_OK cfg) st) /\
  (forall a : Z,
     uint32 a -> 0 < a -> a mod FLASH_CFG_PAGE_SIZE_BYTE cfg = 0 ->
     flash_count_page cfg a 0 = 0) /\
  sub32 (add32 0 0) 1 = UINT32_MAX /\
  flash_count_page cfg 0 0
    = u32 (UINT32_MAX / FLASH_CFG_PAGE_SIZE_BYTE cfg + 1) /\
  (2 <= FLASH_CFG_PAGE_SIZE_BYTE cfg ->
   flash_count_page cfg 0 0 = UINT32_MAX / FLASH_CFG_PAGE_SIZE_BYTE cfg + 1).
Proof.
  intros HP Hsz.
  set (P := FLASH_CFG_PAGE_SIZE_BYTE cfg) in *.
  assert (Hacc : forall a : Z,
            FLASH_CFG_START_ADDR cfg <= a -> flash_region_check cfg a 0 = true).
  { intros a Ha. apply flash_region_check_iff.
    unfold uint32 in Hsz. lia. }
  assert (H00 : flash_count_page cfg 0 0 = u32 (UINT32_MAX / P + 1)).
  { rewrite flash_count_page_zero_size.
    fold P. change (u32 (0 - 1)) with UINT32_MAX.
    rewrite Z.div_0_l by lia. f_equal. lia. }
  split; [exact Hacc|].
  split; [|split; [|split; [|split; [reflexivity|split; [exact H00|]]]]].
  - intros a st Hsingle Hinit Ha Hfit.
    split; [reflexivity|].
    unfold flash_erase, bind, get_is_init.
    rewrite Hinit, (Hacc a Ha), Hsingle.
    rewrite !FLASH_ASSERT_pass by (now right).
    cbn [andb].
    rewrite (erase_single_bank_run cfg a 0 st Hfit).
    eexists. reflexivity.
  - intros a st Hdual Hinit Ha Hu.
    unfold flash_erase, bind, get_is_init.
    rewrite Hinit, (Hacc a Ha), Hdual.
    rewrite !FLASH_ASSERT_pass by (now right).
    cbn [andb]. now apply erase_dual_bank_nothing_to_do.
  - intros a Ha Hpos Hal. now apply flash_count_page_zero_size_aligned.
  - intros HP2. rewrite H00. apply u32_small.
    unfold uint32, UINT32_MAX.
    assert (0 <= 4294967295 / P) by (apply Z.div_pos; lia).
    assert (4294967295 / P <= 4294967295 / 2).
    { apply Z.div_le_compat_l; lia. }
    change (4294967295 / 2) with 2147483647 in *. lia.
Qed.

End ZeroSize.

Lemma zero_size_request_witness :
  flash_region_check cfg_single 134344704 0 = true /\
  (exists status : Z,
     flash_erase cfg_single 134344704 0 (scripted_state true [])
       = Done status
           (hal_next
              (HAL_FLASHEx_Erase
                 {| TypeErase := FLASH_TYPEERASE_PAGES; Banks := FLASH_BANK_1;
                    Page := 62; NbPages := 0 |})
              (scripted_state true []))) /\
  flash_erase cfg_dual 134217728 0 (scripted_state true [])
    = Done (eFLASH_OK cfg_dual) (scripted_state true []) /\
  flash_count_page cfg_single 134344704 0 = 0 /\
  flash_count_page cfg_single 0 0 = 2097152.
Proof.
  destruct (@zero_size_request scripted_hal cfg_single
              ltac:(simpl; lia)
              ltac:(unfold uint32, UINT32_MAX; simpl; lia))
    as (Hacc & Herase & _ & Hal & _ & _ & Hzero).
  destruct (@zero_size_request scripted_hal cfg_dual
              ltac:(simpl; lia)
              ltac:(unfold uint32, UINT32_MAX; simpl; lia))
    as (_ & _ & Hdual & _).
  split; [apply Hacc; simpl; lia|].
  split.
  { exact (proj2 (Herase 134344704 (scripted_state true [])
                    eq_refl eq_refl ltac:(simpl; lia)
                    ltac:(left; reflexivity))). }
  split.
  { exact (Hdual 134217728 (scripted_state true [])
             eq_refl eq_refl ltac:(simpl; lia)
             ltac:(unfold uint32, UINT32_MAX; lia)). }
  split.
  { exact (Hal 134344704 ltac:(unfold uint32, UINT32_MAX; lia)
             ltac:(lia) eq_refl). }
  exact (Hzero ltac:(simpl; lia)).
Defined.

(** * Further properties *)

(** ** What the page count means *)

(** The first and last page of a range that does not wrap, as bounds on
    its bytes. *)
Lemma page_span_bounds (cfg : flash_cfg) (a s : Z) :
  0 < FLASH_CFG_PAGE_SIZE_BYTE cfg ->
  uint32 a -> uint32 s -> 1 <= s -> a + s - 1 <= UINT32_MAX ->
  1 <= flash_count_page cfg a s /\
  a / FLASH_CFG_PAGE_SIZE_BYTE cfg * FLASH_CFG_PAGE_SIZE_BYTE cfg <= a /\
  a + s <= (a / FLASH_CFG_PAGE_SIZE_BYTE cfg + flash_count_page cfg a s)
           * FLASH_CFG_PAGE_SIZE_BYTE cfg /\
  (a / FLASH_CFG_PAGE_SIZE_BYTE cfg + flash_count_page cfg a s - 1)
  * FLASH_CFG_PAGE_SIZE_BYTE cfg < a + s.
Proof.
  intros HP Ha Hs Hs1 Hfit.
  rewrite flash_count_page_exact by assumption.
  set (P := FLASH_CFG_PAGE_SIZE_BYTE cfg) in *.
  set (first := a / P).
  set (last := (a + s - 1) / P).
  assert (Hmono : first <= last) by (apply Z.div_le_mono; lia).
  pose proof (Z.mul_div_le a P HP) as H1.
  pose proof (Z.mul_div_le (a + s - 1) P HP) as H2.
  pose proof (Z.mul_succ_div_gt (a + s - 1) P HP) as H3.
  fold first in H1. fold last in H2, H3.
  replace (first + (last - first + 1)) with (Z.succ last) by lia.
  replace (Z.succ last - 1) with last by lia.
  repeat split; lia.
Qed.

(** X1: without wrap-around, the pages counted by flash_count_page, starting
    with the page of addr, cover the byte range [addr, addr + size), and
    the last of them is needed: the count is the least number of pages that
    covers the range. *)
Theorem flash_count_page_covers (cfg : flash_cfg) (a s : Z) :
  0 < FLASH_CFG_PAGE_SIZE_BYTE cfg ->
  uint32 a -> uint32 s -> 1 <= s -> a + s - 1 <= UINT32_MAX ->
  let P := FLASH_CFG_PAGE_SIZE_BYTE cfg in
  let first := a / P in
  let n := flash_count_page cfg a s in
  1 <= n /\
  first * P <= a /\
  a + s <= (first + n) * P /\
  (first + n - 1) * P < a + s.
Proof.
  intros HP Ha Hs Hs1 Hfit P first n.
  exact (page_span_bounds cfg a s HP Ha Hs Hs1 Hfit).
Qed.

Lemma flash_count_page_covers_witness :
  65598 * 2048 <= 134345000 /\
  134345000 + 3000 <= (65598 + flash_count_page cfg_single 134345000 3000) * 2048.
Proof.
  destruct (flash_count_page_covers cfg_single 134345000 3000
              ltac:(simpl; lia)
              ltac:(unfold uint32, UINT32_MAX; lia)
              ltac:(unfold uint32, UINT32_MAX; lia)
              ltac:(lia)
              ltac:(unfold UINT32_MAX; lia))
    as (_ & Hlo & Hhi & _).
  split; [exact Hlo | exact Hhi].
Defined.

(** X2: without wrap-around the page count depends only on the size and on
    the offset of addr inside its page: it is
    (addr mod P + size - 1) / P + 1.  So a page-sized range that does not
    start on a page boundary counts two pages. *)
Theorem flash_count_page_by_offset (cfg : flash_cfg) (a s : Z) :
  0 < FLASH_CFG_PAGE_SIZE_BYTE cfg ->
  uint32 a -> uint32 s -> 1 <= s -> a + s - 1 <= UINT32_MAX ->
  let P := FLASH_CFG_PAGE_SIZE_BYTE cfg in
  flash_count_page cfg a s = (a mod P + s - 1) / P + 1 /\
  (a mod P <> 0 -> s = P -> flash_count_page cfg a s = 2).
Proof.
  intros HP Ha Hs Hs1 Hfit P.
  assert (Hform : flash_count_page cfg a s = (a mod P + s - 1) / P + 1).
  { rewrite flash_count_page_exact by assumption. fold P.
    pose proof (Z.div_mod a P ltac:(lia)) as Ea.
    replace (a + s - 1) with (a / P * P + (a mod P + s - 1)) at 1 by lia.
    rewrite Z.div_add_l by lia. lia. }
  split; [exact Hform|].
  intros Hoff HsP. rewrite Hform.
  pose proof (Z.mod_pos_bound a P HP) as Hr.
  assert (Hq : (a mod P + s - 1) / P = 1).
  { symmetry. apply (Z.div_unique _ P 1 (a mod P - 1)); lia. }
  rewrite Hq. reflexivity.
Qed.

Lemma flash_count_page_by_offset_witness :
  flash_count_page cfg_single 134344705 2048 = 2.
Proof.
  apply (proj2 (flash_count_page_by_offset cfg_single 134344705 2048
                  ltac:(simpl; lia)
                  ltac:(unfold uint32, UINT32_MAX; lia)
                  ltac:(unfold uint32, UINT32_MAX; lia)
                  ltac:(lia)
                  ltac:(unfold UINT32_MAX; lia))).
  - vm_compute; discriminate.
  - reflexivity.
Defined.

(** X3: the pages of a single-bank erase stay inside a page-aligned user
    region.  When FLASH_BASE, the start and the size of the region are
    multiples of the page size and the request [addr, addr + size) lies
    inside the region, the erased pages [Page, Page + NbPages), taken from
    FLASH_BASE, begin at or after the region start and end at or before the
    region end. *)
Theorem single_erase_pages_in_region (cfg : flash_cfg) (a s : Z) :
  let P := FLASH_CFG_PAGE_SIZE_BYTE cfg in
  let base := FLASH_BASE cfg in
  let start := FLASH_CFG_START_ADDR cfg in
  let e := setup_single_erase cfg a s in
  0 < P -> uint32 a -> uint32 s -> uint32 base -> 1 <= s ->
  base mod P = 0 -> start mod P = 0 -> FLASH_CFG_SIZE_BYTE cfg mod P = 0 ->
  base <= start -> start <= a ->
  a + s <= start + FLASH_CFG_SIZE_BYTE cfg ->
  start + FLASH_CFG_SIZE_BYTE cfg - 1 <= UINT32_MAX ->
  start <= base + Page e * P /\
  base + Page e * P <= a /\
  a + s <= base + (Page e + NbPages e) * P /\
  base + (Page e + NbPages e) * P <= start + FLASH_CFG_SIZE_BYTE cfg.
Proof.
  intros P base start e HP Ha Hs Hb Hs1 Hbm Hsm Hzm Hbs Hsa Hin Hfit.
  cbn [e setup_single_erase Page NbPages]. fold P. fold base.
  assert (Hsub : sub32 a base = a - base).
  { apply u32_small. unfold uint32 in *. lia. }
  unfold div32. rewrite Hsub.
  destruct (page_span_bounds cfg a s HP Ha Hs Hs1 ltac:(lia))
    as (Hn1 & Hlo & Hhi & Hmin).
  fold P in Hn1, Hlo, Hhi, Hmin.
  set (n := flash_count_page cfg a s) in *.
  pose proof (Z.div_mod base P ltac:(lia)) as Eb. rewrite Hbm in Eb.
  pose proof (Z.div_mod start P ltac:(lia)) as Es. rewrite Hsm in Es.
  pose proof (Z.div_mod (FLASH_CFG_SIZE_BYTE cfg) P ltac:(lia)) as Ez.
  rewrite Hzm in Ez.
  assert (Hpage : (a - base) / P = a / P - base / P).
  { replace (a - base) with (- (base / P) * P + a) by lia.
    rewrite Z.div_add_l by lia. lia. }
  rewrite Hpage.
  assert (Hge : start / P <= a / P) by (apply Z.div_le_mono; lia).
  assert (Hend : a / P + n <= start / P + FLASH_CFG_SIZE_BYTE cfg / P) by nia.
  repeat split; nia.
Qed.

Lemma single_erase_pages_in_region_witness :
  134217728
    <= 134217728 + Page (setup_single_erase cfg_single_all 134219000 4000) * 2048 /\
  134217728
    + (Page (setup_single_erase cfg_single_all 134219000 4000)
       + NbPages (setup_single_erase cfg_single_all 134219000 4000)) * 2048
    <= 134217728 + 131072.
Proof.
  destruct (single_erase_pages_in_region cfg_single_all 134219000 4000
              ltac:(simpl; lia)
              ltac:(unfold uint32, UINT32_MAX; lia)
              ltac:(unfold uint32, UINT32_MAX; lia)
              ltac:(unfold uint32, UINT32_MAX; simpl; lia)
              ltac:(lia)
              ltac:(reflexivity) ltac:(reflexivity) ltac:(reflexivity)
              ltac:(simpl; lia) ltac:(simpl; lia) ltac:(simpl; lia)
              ltac:(unfold UINT32_MAX; simpl; lia))
    as (Hlo & _ & _ & Hhi).
  split; [exact Hlo | exact Hhi].
Defined.

(** ** The split over the banks, in every case *)

(** X4: flash_erase_dual_bank never loses or invents bytes when it splits a
    range: the two entries of bank_data have sizes that add up to size.  An
    entry with work for bank 1 starts at addr, below the base of bank 2; an
    entry with work for bank 2 starts at or above that base; and when
    addr + size does not wrap, the bank 1 entry ends at or before the base
    of bank 2. *)
Theorem split_bank_data_conserves (cfg : flash_cfg) (a s : Z) :
  let B := FLASH_CFG_BANK2_START_ADDR cfg in
  uint32 a -> uint32 s -> uint32 B ->
  exists bd1 bd2 : flash_bank_data_t,
    split_bank_data cfg a s = [bd1; bd2] /\
    0 <= size bd1 /\ 0 <= size bd2 /\
    size bd1 + size bd2 = s /\
    (0 < size bd1 -> addr bd1 = a /\ a < B) /\
    (0 < size bd2 -> B <= addr bd2 /\ (addr bd2 = a \/ addr bd2 = B)) /\
    (a + s <= UINT32_MAX -> 0 < size bd1 -> addr bd1 + size bd1 <= B).
Proof.
  intros B Ha Hs HB. unfold split_bank_data. fold B.
  destruct (Z.ltb_spec a B) as [Hlt | Hge].
  - destruct (Z.ltb_spec (add32 a s) B) as [Hsum | Hsum].
    + eexists _, _. split; [reflexivity|]. cbn [addr size bank_data_zero].
      unfold uint32 in *.
      repeat split; try lia.
      intros Hfit _. unfold add32 in Hsum.
      rewrite u32_small in Hsum by (unfold uint32; lia). lia.
    + cbv zeta.
      assert (H1 : sub32 B a = B - a).
      { apply u32_small. unfold uint32 in *. lia. }
      assert (Hle : B - a <= s).
      { unfold uint32, UINT32_MAX in *.
        destruct (Z_le_gt_dec (a + s) 4294967295) as [Hfit | Hwrap]; [|lia].
        unfold add32 in Hsum.
        rewrite u32_small in Hsum by (unfold uint32, UINT32_MAX; lia). lia. }
      assert (H2 : sub32 s (B - a) = s - (B - a)).
      { apply u32_small. unfold uint32 in *. lia. }
      rewrite H1, H2.
      eexists _, _. split; [reflexivity|]. cbn [addr size].
      unfold uint32 in *. repeat split; lia.
  - eexists _, _. split; [reflexivity|]. cbn [addr size bank_data_zero].
    unfold uint32 in *. repeat split; lia.
Qed.

Lemma split_bank_data_conserves_witness :
  exists bd1 bd2 : flash_bank_data_t,
    split_bank_data cfg_dual 134477824 4096 = [bd1; bd2] /\
    size bd1 + size bd2 = 4096.
Proof.
  destruct (split_bank_data_conserves cfg_dual 134477824 4096
              ltac:(unfold uint32, UINT32_MAX; lia)
              ltac:(unfold uint32, UINT32_MAX; lia)
              ltac:(unfold uint32, UINT32_MAX; simpl; lia))
    as (bd1 & bd2 & Hsplit & _ & _ & Hsum & _).
  exists bd1, bd2. split; [exact Hsplit | exact Hsum].
Defined.

(** The entries of bank_data for a range across the base of bank 2. *)
Lemma split_bank_data_across (cfg : flash_cfg) (a s : Z) :
  let B := FLASH_CFG_BANK2_START_ADDR cfg in
  uint32 a -> uint32 s -> uint32 B ->
  a < B -> B <= a + s -> a + s <= UINT32_MAX ->
  split_bank_data cfg a s =
    [ {| addr := a; size := B - a |}; {| addr := B; size := a + s - B |} ].
Proof.
  intros B Ha Hs HB Hlt Hge Hfit. unfold split_bank_data. fold B.
  assert (Hsum : add32 a s = a + s).
  { apply u32_small. unfold uint32 in *. lia. }
  rewrite Hsum.
  destruct (Z.ltb_spec a B); [|lia].
  destruct (Z.ltb_spec (a + s) B); [lia|]. cbv zeta.
  assert (H1 : sub32 B a = B - a).
  { apply u32_small. unfold uint32 in *. lia. }
  rewrite H1.
  assert (H2 : sub32 s (B - a) = a + s - B).
  { unfold sub32. replace (s - (B - a)) with (a + s - B) by lia.
    apply u32_small. unfold uint32 in *. lia. }
  now rewrite H2.
Qed.

(** X5: in a straddling dual-bank erase over page-aligned banks (no
    wrap-around), the part for bank 2 starts at page 0 of bank 2, and the
    part for bank 1 runs up to the last page before bank 2: its start page
    plus its page count is the number of pages between the two bank
    bases. *)
Theorem straddle_page_geometry (cfg : flash_cfg) (a s : Z) :
  let P := FLASH_CFG_PAGE_SIZE_BYTE cfg in
  let B1 := FLASH_CFG_BANK1_START_ADDR cfg in
  let B := FLASH_CFG_BANK2_START_ADDR cfg in
  0 < P -> uint32 a -> uint32 s -> uint32 B -> 0 <= B1 ->
  B1 mod P = 0 -> B mod P = 0 ->
  B1 <= a -> a < B -> B < a + s -> a + s <= UINT32_MAX ->
  exists bd1 bd2 : flash_bank_data_t,
    split_bank_data cfg a s = [bd1; bd2] /\
    0 < size bd1 /\ 0 < size bd2 /\
    div32 (sub32 (addr bd2) (gu32_flash_base cfg eFLASH_BANK_2)) P = 0 /\
    div32 (sub32 (addr bd1) (gu32_flash_base cfg eFLASH_BANK_1)) P
      + flash_count_page cfg (addr bd1) (size bd1)
    = (B - B1) / P.
Proof.
  intros P B1 B HP Ha Hs HB HB1 Hm1 Hm Hlo Hlt Hgt Hfit.
  eexists _, _. split.
  { apply split_bank_data_across; (assumption || (fold B; lia)). }
  cbn [addr size]. fold B.
  cbn [gu32_flash_base eFLASH_BANK_1 eFLASH_BANK_2 Z.eqb]. fold B1. fold B.
  unfold div32, sub32.
  split; [lia|]. split; [lia|]. split.
  - replace (B - B) with 0 by lia. reflexivity.
  - rewrite (u32_small (a - B1)) by (unfold uint32 in *; lia).
    rewrite flash_count_page_exact
      by (unfold uint32 in *; (assumption || lia)).
    fold P. replace (a + (B - a) - 1) with (B - 1) by lia.
    pose proof (Z.div_mod B1 P ltac:(lia)) as E1. rewrite Hm1 in E1.
    pose proof (Z.div_mod B P ltac:(lia)) as E2. rewrite Hm in E2.
    assert (Ha1 : (a - B1) / P = a / P - B1 / P).
    { replace (a - B1) with (- (B1 / P) * P + a) by lia.
      rewrite Z.div_add_l by lia. lia. }
    assert (Hb1 : (B - B1) / P = B / P - B1 / P).
    { replace (B - B1) with (- (B1 / P) * P + B) by lia.
      rewrite Z.div_add_l by lia. lia. }
    assert (Hq : 1 <= B / P).
    { destruct (Z_lt_le_dec (B / P) 1) as [Hl|]; [|assumption].
      assert (B / P <= 0) by lia. unfold uint32 in *. nia. }
    assert (Hlast : (B - 1) / P = B / P - 1).
    { symmetry. apply (Z.div_unique _ P _ (P - 1)); [lia|nia]. }
    rewrite Ha1, Hb1, Hlast. lia.
Qed.

Lemma straddle_page_geometry_witness :
  exists bd1 bd2 : flash_bank_data_t,
    split_bank_data cfg_dual 134477000 5000 = [bd1; bd2] /\
    div32 (sub32 (addr bd1) (gu32_flash_base cfg_dual eFLASH_BANK_1)) 2048
      + flash_count_page cfg_dual (addr bd1) (size bd1)
    = 128.
Proof.
  destruct (straddle_page_geometry cfg_dual 134477000 5000
              ltac:(simpl; lia)
              ltac:(unfold uint32, UINT32_MAX; lia)
              ltac:(unfold uint32, UINT32_MAX; lia)
              ltac:(unfold uint32, UINT32_MAX; simpl; lia)
              ltac:(simpl; lia)
              ltac:(reflexivity) ltac:(reflexivity)
              ltac:(simpl; lia) ltac:(simpl; lia) ltac:(simpl; lia)
              ltac:(unfold UINT32_MAX; lia))
    as (bd1 & bd2 & Hsplit & _ & _ & _ & Hpages).
  exists bd1, bd2. split; [exact Hsplit | exact Hpages].
Defined.

(** ** Dual-bank erases that touch one bank, or none *)

Section OneBank.

Context {H : FlashHal}.

(** X6: a dual-bank erase of a non-empty range that lies in one bank
    submits exactly one HAL erase, for that bank: bank 1 when the range ends
    at or before the base of bank 2 (a range that ends exactly at the base
    included), bank 2 when it starts at or after that base.  The start page
    is counted from the base of the bank concerned. *)
Theorem erase_dual_bank_one_request (cfg : flash_cfg) (a s : Z)
    (st : flash_state) :
  let B := FLASH_CFG_BANK2_START_ADDR cfg in
  let bd := {| addr := a; size := s |} in
  uint32 a -> uint32 s -> uint32 B -> 0 < s -> bank_fits cfg bd ->
  (a + s <= B ->
   exists status : Z,
     flash_erase_dual_bank cfg a s st =
     Done status
       (hal_next
          (HAL_FLASHEx_Erase
             (setup_bank_erase cfg eFLASH_BANK_1 bd erase_init_zero)) st) /\
     Banks (setup_bank_erase cfg eFLASH_BANK_1 bd erase_init_zero)
       = FLASH_BANK_1) /\
  (B <= a ->
   exists status : Z,
     flash_erase_dual_bank cfg a s st =
     Done status
       (hal_next
          (HAL_FLASHEx_Erase
             (setup_bank_erase cfg eFLASH_BANK_2 bd erase_init_zero)) st) /\
     Banks (setup_bank_erase cfg eFLASH_BANK_2 bd erase_init_zero)
       = FLASH_BANK_2).
Proof.
  intros B bd Ha Hs HB Hpos Hfit.
  assert (Hbanks : forall bank,
            Banks (setup_bank_erase cfg bank bd erase_init_zero)
            = if bank =? eFLASH_BANK_1 then FLASH_BANK_1 else FLASH_BANK_2).
  { intros bank. unfold setup_bank_erase.
    destruct (FLASH_TYPEERASE_PAGES =? _); reflexivity. }
  split.
  - intros Hend.
    assert (Hsplit : exists bd2,
              split_bank_data cfg a s = [bd; bd2] /\ size bd2 = 0).
    { destruct (Z.eq_dec (a + s) B) as [Heq | Hne].
      - exists {| addr := B; size := 0 |}. split; [|reflexivity].
        rewrite split_bank_data_across
          by (unfold uint32 in *; fold B; (assumption || lia)).
        fold B. unfold bd. repeat f_equal; lia.
      - exists bank_data_zero. split; [|reflexivity].
        unfold split_bank_data. fold B.
        assert (Hsum : add32 a s = a + s).
        { apply u32_small. unfold uint32 in *. lia. }
        rewrite Hsum.
        destruct (Z.ltb_spec a B); [|lia].
        destruct (Z.ltb_spec (a + s) B); [reflexivity|lia]. }
    destruct Hsplit as (bd2 & Hsplit & Hzero).
    unfold flash_erase_dual_bank, bank_indexes. rewrite Hsplit.
    rewrite erase_banks_visit by assumption.
    rewrite erase_banks_skip by (change (size bd2 <= 0); lia).
    eexists. split; [reflexivity|]. apply Hbanks.
  - intros Hstart.
    assert (Hsplit : split_bank_data cfg a s = [bank_data_zero; bd]).
    { unfold split_bank_data. fold B.
      destruct (Z.ltb_spec a B); [lia|reflexivity]. }
    unfold flash_erase_dual_bank, bank_indexes. rewrite Hsplit.
    rewrite erase_banks_skip by (change (0 <= 0); lia).
    rewrite erase_banks_visit by assumption.
    eexists. split; [reflexivity|]. apply Hbanks.
Qed.

(** X7: in the dual-bank build an erase of size zero does nothing: no HAL
    call is made, the state is unchanged and eFLASH_OK is returned (the
    bank loop skips a bank whose size is 0). *)
Theorem erase_dual_bank_zero_size (cfg : flash_cfg) (a : Z)
    (st : flash_state) :
  uint32 a ->
  flash_erase_dual_bank cfg a 0 st = Done (eFLASH_OK cfg) st /\
  (FLASH_CFG_DUAL_BANK_MODE_EN cfg = true ->
   gb_is_init st = true ->
   FLASH_CFG_START_ADDR cfg <= a -> 0 <= FLASH_CFG_SIZE_BYTE cfg ->
   flash_erase cfg a 0 st = Done (eFLASH_OK cfg) st).
Proof.
  intros Ha.
  assert (Hdual : flash_erase_dual_bank cfg a 0 st = Done (eFLASH_OK cfg) st).
  { unfold flash_erase_dual_bank, bank_indexes, split_bank_data.
    assert (Hsum : add32 a 0 = a).
    { unfold add32. rewrite Z.add_0_r. now apply u32_small. }
    rewrite Hsum.
    destruct (a <? FLASH_CFG_BANK2_START_ADDR cfg); reflexivity. }
  split; [exact Hdual|].
  intros Hmode Hinit Hlo Hsz.
  unfold flash_erase, bind, get_is_init.
  assert (Hchk : flash_region_check cfg a 0 = true).
  { apply flash_region_check_iff. lia. }
  rewrite Hinit, Hchk, Hmode.
  rewrite !FLASH_ASSERT_pass by (now right).
  exact Hdual.
Qed.

End OneBank.

Lemma erase_dual_bank_one_request_witness :
  (exists status : Z,
     flash_erase_dual_bank cfg_dual 134217728 4096 (scripted_state true []) =
     Done status
       (hal_next
          (HAL_FLASHEx_Erase
             {| TypeErase := FLASH_TYPEERASE_PAGES; Banks := FLASH_BANK_1;
                Page := 0; NbPages := 2 |})
          (scripted_state true []))) /\
  (exists status : Z,
     flash_erase_dual_bank cfg_dual 134481920 4096 (scripted_state true []) =
     Done status
       (hal_next
          (HAL_FLASHEx_Erase
             {| TypeErase := FLASH_TYPEERASE_PAGES; Banks := FLASH_BANK_2;
                Page := 1; NbPages := 2 |})
          (scripted_state true []))).
Proof.
  split.
  - destruct (proj1 (@erase_dual_bank_one_request scripted_hal cfg_dual
                       134217728 4096 (scripted_state true [])
                       ltac:(unfold uint32, UINT32_MAX; lia)
                       ltac:(unfold uint32, UINT32_MAX; lia)
                       ltac:(unfold uint32, UINT32_MAX; simpl; lia)
                       ltac:(lia)
                       ltac:(left; reflexivity))
                ltac:(simpl; lia))
      as (status & Hrun & _).
    exists status. exact Hrun.
  - destruct (proj2 (@erase_dual_bank_one_request scripted_hal cfg_dual
                       134481920 4096 (scripted_state true [])
                       ltac:(unfold uint32, UINT32_MAX; lia)
                       ltac:(unfold uint32, UINT32_MAX; lia)
                       ltac:(unfold uint32, UINT32_MAX; simpl; lia)
                       ltac:(lia)
                       ltac:(left; reflexivity))
                ltac:(simpl; lia))
      as (status & Hrun & _).
    exists status. exact Hrun.
Defined.

Lemma erase_dual_bank_zero_size_witness :
  flash_erase cfg_dual 134217728 0 (scripted_state true [])
    = Done (eFLASH_OK cfg_dual) (scripted_state true []).
Proof.
  apply (proj2 (@erase_dual_bank_zero_size scripted_hal cfg_dual 134217728
                  (scripted_state true [])
                  ltac:(unfold uint32, UINT32_MAX; lia)));
    simpl; (reflexivity || lia).
Defined.

(** ** The status of an erase *)

Section EraseStatus.

Context {H : FlashHal}.

(** The bank loop returns the status it was given or C false. *)
Lemma erase_banks_status (cfg : flash_cfg)
    (bank_data : list flash_bank_data_t) (banks : list Z) :
  forall (fe : FLASH_EraseInitTypeDef) (status : Z) (st : flash_state)
         (r : Z) (st' : flash_state),
    erase_banks cfg bank_data banks fe status st = Done r st' ->
    r = status \/ r = C_false.
Proof.
  induction banks as [|bank rest IH]; intros fe status st r st' Hrun.
  - cbn in Hrun. unfold ret in Hrun. injection Hrun as <- _. now left.
  - cbn [erase_banks] in Hrun.
    destruct (0 <? size _).
    + unfold bind at 1 in Hrun.
      destruct (FLASH_ASSERT cfg _ st) as [[] st0 | st0 |]; try discriminate.
      unfold bind, hal in Hrun. apply IH in Hrun.
      destruct (hal_answer _ st0 =? HAL_OK); [assumption|].
      right. now destruct Hrun.
    + now apply IH in Hrun.
Qed.

(** X8: an accepted erase that returns gives eFLASH_OK or the value 0 (C
    false) and nothing else: a failed HAL erase is recorded as 0, not as
    eFLASH_ERROR.  In the single-bank build the status is eFLASH_OK when
    the HAL erase answers HAL_OK and 0 when it does not; so when eFLASH_OK
    is not 0 the status is eFLASH_OK exactly when the HAL answers HAL_OK,
    and when eFLASH_OK is 0 every accepted erase that returns gives
    eFLASH_OK, a failed HAL erase included. *)
Theorem erase_status_values (cfg : flash_cfg) (a s : Z) (st : flash_state)
    (r : Z) (st' : flash_state) :
  gb_is_init st = true ->
  flash_region_check cfg a s = true ->
  flash_erase cfg a s st = Done r st' ->
  (r = eFLASH_OK cfg \/ r = C_false) /\
  (FLASH_CFG_DUAL_BANK_MODE_EN cfg = false ->
   r = if hal_answer (HAL_FLASHEx_Erase (setup_single_erase cfg a s)) st
          =? HAL_OK
       then eFLASH_OK cfg else C_false) /\
  (FLASH_CFG_DUAL_BANK_MODE_EN cfg = false ->
   eFLASH_OK cfg <> C_false ->
   (r = eFLASH_OK cfg <->
    hal_answer (HAL_FLASHEx_Erase (setup_single_erase cfg a s)) st = HAL_OK)) /\
  (eFLASH_OK cfg = C_false -> r = eFLASH_OK cfg).
Proof.
  intros Hinit Hchk Hrun.
  assert (Hvalues : r = eFLASH_OK cfg \/ r = C_false).
  { unfold flash_erase, bind, get_is_init in Hrun.
    rewrite Hinit, Hchk in Hrun.
    rewrite !FLASH_ASSERT_pass in Hrun by (now right).
    cbn [andb] in Hrun.
    destruct (FLASH_CFG_DUAL_BANK_MODE_EN cfg).
    - unfold flash_erase_dual_bank in Hrun.
      now apply erase_banks_status in Hrun.
    - unfold flash_erase_single_bank, bind in Hrun.
      destruct (FLASH_ASSERT cfg _ st) as [[] st0 | st0 |]; try discriminate.
      unfold hal, ret in Hrun. injection Hrun as <- _.
      destruct (hal_answer _ _ =? HAL_OK); [now left | now right]. }
  assert (Hsingle : FLASH_CFG_DUAL_BANK_MODE_EN cfg = false ->
            r = if hal_answer
                     (HAL_FLASHEx_Erase (setup_single_erase cfg a s)) st
                   =? HAL_OK
                then eFLASH_OK cfg else C_false).
  { intros Hmode.
    unfold flash_erase, bind, get_is_init in Hrun.
    rewrite Hinit, Hchk, Hmode in Hrun.
    rewrite !FLASH_ASSERT_pass in Hrun by (now right).
    cbn [andb] in Hrun.
    unfold flash_erase_single_bank, bind in Hrun.
    destruct (FLASH_ASSERT cfg _ st) as [[] st0 | st0 |] eqn:Hassert;
      try discriminate.
    unfold FLASH_ASSERT in Hassert.
    destruct (FLASH_CFG_ASSERT_EN cfg && _); [discriminate|].
    injection Hassert as <-.
    unfold hal, ret in Hrun. now injection Hrun as <- _. }
  split; [exact Hvalues|]. split; [exact Hsingle|]. split.
  - intros Hmode Hcodes. rewrite (Hsingle Hmode).
    destruct (Z.eqb_spec
                (hal_answer (HAL_FLASHEx_Erase (setup_single_erase cfg a s)) st)
                HAL_OK) as [Hok | Hko].
    + tauto.
    + split; [intros Hc; now symmetry in Hc | contradiction].
  - intros Hzero. destruct Hvalues as [-> | ->]; [reflexivity | now symmetry].
Qed.

(** X9: the flash_erase of the earlier single-file driver and the
    flash_erase of flash.c built without FLASH_CFG_DUAL_BANK_MODE_EN behave
    alike: same result, same HAL calls, same state, on every input. *)
Theorem single_file_erase_agrees (cfg : flash_cfg) (a s : Z)
    (st : flash_state) :
  FLASH_CFG_DUAL_BANK_MODE_EN cfg = false ->
  SingleFile.flash_erase cfg a s st = flash_erase cfg a s st.
Proof.
  intros Hmode.
  unfold SingleFile.flash_erase, flash_erase, flash_erase_single_bank,
    setup_single_erase, bind, get_is_init.
  rewrite Hmode.
  destruct (FLASH_ASSERT cfg (gb_is_init st) st) as [[] st0 | st0 |];
    [|reflexivity|reflexivity].
  destruct (FLASH_ASSERT cfg (flash_region_check cfg a s) st0)
    as [[] st1 | st1 |]; [|reflexivity|reflexivity].
  destruct (gb_is_init st && flash_region_check cfg a s); reflexivity.
Qed.

(** X10: flash_write and flash_read with a null p_data touch nothing: no
    HAL call is made and the state is unchanged, whatever the address, the
    size and the initialisation state.  Built without assertions they
    return eFLASH_ERROR; built with assertions they stop at an assertion. *)
Theorem null_buffer_rejected (cfg : flash_cfg) (fuel : nat) (a s : Z)
    (st : flash_state) :
  flash_write fuel cfg a s None st =
    (if FLASH_CFG_ASSERT_EN cfg then Assert_failed st
     else Done (eFLASH_ERROR cfg) st) /\
  flash_read fuel cfg a s None st =
    (if FLASH_CFG_ASSERT_EN cfg then Assert_failed st
     else Done (eFLASH_ERROR cfg, None) st).
Proof.
  unfold flash_write, flash_read, bind, get_is_init, FLASH_ASSERT.
  cbn [is_non_null negb].
  destruct (FLASH_CFG_ASSERT_EN cfg), (gb_is_init st),
    (flash_region_check cfg a s); split; reflexivity.
Qed.

End EraseStatus.

Lemma erase_status_values_witness :
  exists (r : Z) st',
    flash_erase cfg_single 134344704 2048 (scripted_state true [1])
      = Done r st' /\
    r = eFLASH_OK cfg_single /\
    hal_answer
      (HAL_FLASHEx_Erase (setup_single_erase cfg_single 134344704 2048))
      (scripted_state true [1]) <> HAL_OK.
Proof.
  eexists _, _. split; [reflexivity|]. split.
  - apply (proj2 (proj2 (proj2
             (@erase_status_values scripted_hal cfg_single 134344704 2048
                (scripted_state true [1]) _ _ eq_refl eq_refl eq_refl)))).
    reflexivity.
  - vm_compute. discriminate.
Defined.

Lemma single_file_erase_agrees_witness :
  SingleFile.flash_erase cfg_single 134344704 2048 (scripted_state true [])
    = flash_erase cfg_single 134344704 2048 (scripted_state true []).
Proof.
  apply (@single_file_erase_agrees scripted_hal cfg_single). reflexivity.
Defined.

(** ** The life cycle in full *)

Section LifecycleRuns.

Context {H : FlashHal}.

(** The busy-wait only polls the flag, at least once and at most [fuel]
    times. *)
Lemma wait_while_busy_trace (fuel : nat) :
  forall st st' : flash_state,
    wait_while_busy fuel st = Done tt st' ->
    exists n : nat,
      (1 <= n <= fuel)%nat /\
      hal_trace st' = hal_trace st ++ repeat HAL_FLASH_GET_FLAG_BSY n.
Proof.
  induction fuel as [|fuel IH]; intros st st' Hrun; [discriminate|].
  cbn [wait_while_busy] in Hrun. unfold bind, hal in Hrun.
  destruct (hal_answer HAL_FLASH_GET_FLAG_BSY st =? RESET).
  - unfold ret in Hrun. injection Hrun as <-.
    exists 1%nat. split; [lia | reflexivity].
  - apply IH in Hrun. destruct Hrun as (n & Hn & Htrace).
    exists (S n). split; [lia|].
    rewrite Htrace. cbn [hal_next hal_trace repeat].
    now rewrite <- app_assoc.
Qed.

(** X11: the value returned by flash_init and flash_deinit tells the state
    of the driver.  With two distinct status codes, flash_init returns
    eFLASH_OK exactly when the driver is initialised afterwards, and
    flash_deinit returns eFLASH_OK exactly when it is not initialised
    afterwards. *)
Theorem init_deinit_status_tells_flag (cfg : flash_cfg) (fuel : nat)
    (st : flash_state) (r : Z) (st' : flash_state) :
  eFLASH_OK cfg <> eFLASH_ERROR cfg ->
  (flash_init fuel cfg st = Done r st' ->
   (r = eFLASH_OK cfg <-> gb_is_init st' = true)) /\
  (flash_deinit cfg st = Done r st' ->
   (r = eFLASH_OK cfg <-> gb_is_init st' = false)).
Proof.
  intros Hcodes. split; intros Hrun.
  - unfold flash_init, bind, get_is_init in Hrun.
    destruct (gb_is_init st) eqn:Hinit; cbn [negb] in Hrun.
    + unfold ret in Hrun. injection Hrun as <- <-. tauto.
    + unfold hal at 1 in Hrun.
      destruct (wait_while_busy fuel _) as [[] st2 | st2 |] eqn:Hwait;
        try discriminate.
      apply wait_while_busy_flag in Hwait. cbn [hal_next gb_is_init] in Hwait.
      unfold hal in Hrun.
      destruct (hal_answer HAL_FLASH_Unlock st2 =? HAL_OK).
      * unfold set_is_init, ret in Hrun. injection Hrun as <- <-.
        cbn. tauto.
      * unfold ret in Hrun. injection Hrun as <- <-.
        cbn [hal_next gb_is_init]. rewrite Hwait, Hinit.
        split; [congruence | discriminate].
  - unfold flash_deinit, bind, get_is_init in Hrun.
    destruct (gb_is_init st) eqn:Hinit.
    + unfold hal at 1 in Hrun.
      destruct (hal_answer HAL_FLASH_Lock st =? HAL_OK).
      * unfold hal, set_is_init, ret in Hrun. injection Hrun as <- <-.
        cbn. tauto.
      * unfold ret in Hrun. injection Hrun as <- <-.
        cbn [hal_next gb_is_init]. rewrite Hinit.
        split; [congruence | discriminate].
    + unfold ret in Hrun. injection Hrun as <- <-. tauto.
Qed.

(** X12: the HAL calls of flash_init on a driver that is not initialised
    are: the clock enable, then between 1 and [fuel] polls of the busy flag,
    then one unlock, in this order and nothing else, whether the unlock
    succeeds or not (the clock is not disabled again after a failed
    unlock). *)
Theorem flash_init_calls (cfg : flash_cfg) (fuel : nat)
    (st : flash_state) (r : Z) (st' : flash_state) :
  gb_is_init st = false ->
  flash_init fuel cfg st = Done r st' ->
  exists n : nat,
    (1 <= n <= fuel)%nat /\
    hal_trace st' =
      hal_trace st
      ++ HAL_RCC_FLASH_CLK_ENABLE
         :: repeat HAL_FLASH_GET_FLAG_BSY n ++ [HAL_FLASH_Unlock].
Proof.
  intros Hinit Hrun.
  unfold flash_init, bind, get_is_init in Hrun.
  rewrite Hinit in Hrun. cbn [negb] in Hrun. unfold hal at 1 in Hrun.
  destruct (wait_while_busy fuel _) as [[] st2 | st2 |] eqn:Hwait;
    try discriminate.
  apply wait_while_busy_trace in Hwait. destruct Hwait as (n & Hn & Htrace).
  cbn [hal_next hal_trace] in Htrace.
  exists n. split; [assumption|].
  assert (Hst' : hal_trace st' = hal_trace st2 ++ [HAL_FLASH_Unlock]).
  { unfold hal in Hrun.
    destruct (hal_answer HAL_FLASH_Unlock st2 =? HAL_OK);
      unfold set_is_init, ret in Hrun; injection Hrun as _ <-; reflexivity. }
  rewrite Hst', Htrace, <- !app_assoc. reflexivity.
Qed.

(** X13: flash_deinit on an initialised driver locks the flash first and
    disables the clock only after a successful lock: its HAL calls are
    [Lock; clock disable] when it returns with the flag cleared, and [Lock]
    alone when the lock fails. *)
Theorem flash_deinit_calls (cfg : flash_cfg) (st : flash_state) :
  gb_is_init st = true ->
  exists (r : Z) (st' : flash_state),
    flash_deinit cfg st = Done r st' /\
    (hal_answer HAL_FLASH_Lock st = HAL_OK ->
     r = eFLASH_OK cfg /\ gb_is_init st' = false /\
     hal_trace st' =
       hal_trace st ++ [HAL_FLASH_Lock; HAL_RCC_FLASH_CLK_DISABLE]) /\
    (hal_answer HAL_FLASH_Lock st <> HAL_OK ->
     r = eFLASH_ERROR cfg /\ gb_is_init st' = true /\
     hal_trace st' = hal_trace st ++ [HAL_FLASH_Lock]).
Proof.
  intros Hinit.
  unfold flash_deinit, bind, get_is_init, hal. rewrite Hinit.
  destruct (Z.eqb_spec (hal_answer HAL_FLASH_Lock st) HAL_OK) as [Hok | Hko].
  - eexists _, _. split; [reflexivity|]. split; [|contradiction].
    intros _. cbn. rewrite <- app_assoc. repeat split.
  - eexists _, _. split; [reflexivity|]. split; [contradiction|].
    intros _. cbn. repeat split. assumption.
Qed.

End LifecycleRuns.

Lemma init_deinit_status_tells_flag_witness :
  exists st',
    flash_init 2 cfg_single (scripted_state false [0; 1; 0; 1])
      = Done (eFLASH_ERROR cfg_single) st' /\
    (eFLASH_ERROR cfg_single = eFLASH_OK cfg_single
     <-> gb_is_init st' = true).
Proof.
  eexists. split; [reflexivity|].
  apply (proj1 (@init_deinit_status_tells_flag scripted_hal cfg_single
                  2%nat (scripted_state false [0; 1; 0; 1]) _ _
                  ltac:(simpl; lia))).
  reflexivity.
Defined.

Lemma flash_init_calls_witness :
  exists (n : nat) st',
    flash_init 5 cfg_single (scripted_state false [0; 1; 1; 0; 0])
      = Done (eFLASH_OK cfg_single) st' /\
    hal_trace st' =
      HAL_RCC_FLASH_CLK_ENABLE
      :: repeat HAL_FLASH_GET_FLAG_BSY n ++ [HAL_FLASH_Unlock].
Proof.
  destruct (@flash_init_calls scripted_hal cfg_single 5%nat
              (scripted_state false [0; 1; 1; 0; 0]) _ _ eq_refl eq_refl)
    as (n & _ & Htrace).
  exists n. eexists. split; [reflexivity | exact Htrace].
Defined.

Lemma flash_deinit_calls_witness :
  exists (r : Z) st',
    flash_deinit cfg_single (scripted_state true [0]) = Done r st' /\
    r = eFLASH_OK cfg_single /\ gb_is_init st' = false.
Proof.
  destruct (@flash_deinit_calls scripted_hal cfg_single
              (scripted_state true [0]) eq_refl)
    as (r & st' & Hrun & Hok & _).
  exists r, st'. split; [exact Hrun|].
  destruct (Hok eq_refl) as (Hr & Hflag & _). split; assumption.
Defined.

Section RoundTrip.

Context {H : FlashHal}.

(** X14: flash_init followed by flash_deinit, on hardware that gets ready,
    unlocks and locks, returns eFLASH_OK both times and leaves the driver
    not initialised again; the HAL has seen the unlock, then the lock, then
    the clock disable. *)
Theorem init_then_deinit (cfg : flash_cfg) (fuel : nat)
    (st st2 : flash_state) :
  gb_is_init st = false ->
  wait_while_busy fuel (hal_next HAL_RCC_FLASH_CLK_ENABLE st) = Done tt st2 ->
  hal_answer HAL_FLASH_Unlock st2 = HAL_OK ->
  hal_answer HAL_FLASH_Lock (hal_next HAL_FLASH_Unlock st2) = HAL_OK ->
  exists st1 st3 : flash_state,
    flash_init fuel cfg st = Done (eFLASH_OK cfg) st1 /\
    gb_is_init st1 = true /\
    flash_deinit cfg st1 = Done (eFLASH_OK cfg) st3 /\
    gb_is_init st3 = false /\
    hal_trace st3 =
      hal_trace st2
      ++ [HAL_FLASH_Unlock; HAL_FLASH_Lock; HAL_RCC_FLASH_CLK_DISABLE].
Proof.
  intros Hinit Hwait Hunlock Hlock.
  rewrite (flash_init_run fuel cfg st st2 Hinit Hwait), Hunlock.
  cbn [Z.eqb HAL_OK].
  eexists _, _. split; [reflexivity|]. split; [reflexivity|].
  unfold flash_deinit, bind, get_is_init, hal.
  cbn [gb_is_init].
  unfold hal_answer in *. cbn [hw_state hal_next] in *.
  rewrite Hlock. cbn [Z.eqb HAL_OK].
  split; [reflexivity|]. split; [reflexivity|].
  cbn. now rewrite <- !app_assoc.
Qed.

End RoundTrip.

Lemma init_then_deinit_witness :
  exists st1 st3,
    flash_init 1 cfg_single (scripted_state false []) =
      Done (eFLASH_OK cfg_single) st1 /\
    flash_deinit cfg_single st1 = Done (eFLASH_OK cfg_single) st3 /\
    gb_is_init st3 = false.
Proof.
  destruct (@init_then_deinit scripted_hal cfg_single 1%nat
              (scripted_state false [])
              (@Build_flash_state scripted_hal false []
                 [HAL_RCC_FLASH_CLK_ENABLE; HAL_FLASH_GET_FLAG_BSY])
              eq_refl eq_refl eq_refl eq_refl)
    as (st1 & st3 & Hi & _ & Hd & Hflag & _).
  exists st1, st3. split; [exact Hi|]. split; [exact Hd | exact Hflag].
Defined.

(** ** What each entry point may do to the hardware and to the flag *)

Section Confinement.

Context {H : FlashHal}.

Lemma confined_ret {A : Type} (keep : bool) (P : hal_call -> Prop) (a : A) :
  confined keep P (ret a).
Proof.
  intros st st' Hend. cbn in Hend. injection Hend as <-.
  split; [reflexivity|]. exists []. split; [now rewrite app_nil_r|constructor].
Qed.

Lemma confined_bind {A B : Type} (keep : bool) (P : hal_call -> Prop)
    (m : M A) (k : A -> M B) :
  confined keep P m -> (forall a : A, confined keep P (k a)) ->
  confined keep P (bind m k).
Proof.
  intros Hm Hk st st' Hend. unfold bind in Hend.
  destruct (m st) as [a st1 | st1 |] eqn:Hrun; [| |discriminate].
  - destruct (Hm st st1) as (Hflag1 & calls1 & Ht1 & Hall1);
      [now rewrite Hrun|].
    destruct (Hk a st1 st' Hend) as (Hflag2 & calls2 & Ht2 & Hall2).
    split.
    + intros Hkeep. rewrite (Hflag2 Hkeep). now apply Hflag1.
    + exists (calls1 ++ calls2). split.
      * now rewrite Ht2, Ht1, app_assoc.
      * apply Forall_app. now split.
  - apply (Hm st st'). now rewrite Hrun.
Qed.

Lemma confined_hal (keep : bool) (P : hal_call -> Prop) (c : hal_call) :
  P c -> confined keep P (hal c).
Proof.
  intros Hc st st' Hend. cbn in Hend. injection Hend as <-.
  split; [reflexivity|]. exists [c]. split; [reflexivity|].
  constructor; [assumption | constructor].
Qed.

Lemma confined_assert (keep : bool) (P : hal_call -> Prop)
    (cfg : flash_cfg) (x : bool) :
  confined keep P (FLASH_ASSERT cfg x).
Proof.
  intros st st' Hend. unfold FLASH_ASSERT in Hend.
  assert (Heq : st' = st).
  { destruct (FLASH_CFG_ASSERT_EN cfg && negb x); cbn in Hend; congruence. }
  subst st'. split; [reflexivity|].
  exists []. split; [now rewrite app_nil_r|constructor].
Qed.

Lemma confined_get_is_init (keep : bool) (P : hal_call -> Prop) :
  confined keep P get_is_init.
Proof.
  intros st st' Hend. cbn in Hend. injection Hend as <-.
  split; [reflexivity|]. exists []. split; [now rewrite app_nil_r|constructor].
Qed.

Lemma confined_set_is_init (P : hal_call -> Prop) (b : bool) :
  confined false P (set_is_init b).
Proof.
  intros st st' Hend. cbn in Hend. injection Hend as <-.
  split; [discriminate|]. exists []. split; [|constructor].
  cbn. now rewrite app_nil_r.
Qed.

Lemma confined_out_of_fuel {A : Type} (keep : bool) (P : hal_call -> Prop) :
  confined keep P (fun _ : flash_state => @Out_of_fuel H A).
Proof. intros st st' Hend. discriminate. Qed.

Lemma confined_erase_banks (cfg : flash_cfg)
    (bank_data : list flash_bank_data_t) (banks : list Z) :
  forall (fe : FLASH_EraseInitTypeDef) (status : Z),
    confined true is_erase_call (erase_banks cfg bank_data banks fe status).
Proof.
  induction banks as [|bank rest IH]; intros fe status; cbn [erase_banks].
  - apply confined_ret.
  - destruct (0 <? size _); [|apply IH].
    apply confined_bind; [apply confined_assert|]. intros _.
    apply confined_bind; [now apply confined_hal|]. intros r. apply IH.
Qed.

Lemma confined_flash_erase (cfg : flash_cfg) (a s : Z) :
  confined true is_erase_call (flash_erase cfg a s).
Proof.
  unfold flash_erase.
  apply confined_bind; [apply confined_get_is_init|]. intros is_init.
  apply confined_bind; [apply confined_assert|]. intros _.
  apply confined_bind; [apply confined_assert|]. intros _.
  destruct (is_init && flash_region_check cfg a s); [|apply confined_ret].
  destruct (FLASH_CFG_DUAL_BANK_MODE_EN cfg).
  - apply confined_erase_banks.
  - unfold flash_erase_single_bank.
    apply confined_bind; [apply confined_assert|]. intros _.
    apply confined_bind; [now apply confined_hal|]. intros r.
    apply confined_ret.
Qed.

Lemma confined_write_dwords (cfg : flash_cfg) (a s : Z) (data : Z -> Z)
    (status : Z) (fuel : nat) :
  forall dword : Z,
    confined true is_program_call
      (write_dwords fuel cfg a s data dword status).
Proof.
  induction fuel as [|fuel IH]; intros dword; cbn [write_dwords];
    destruct (dword <? s); try apply confined_ret;
    [apply confined_out_of_fuel|].
  apply confined_bind; [now apply confined_hal|]. intros r.
  destruct (r =? HAL_OK); [apply IH | apply confined_ret].
Qed.

Lemma confined_read_words (a s : Z) (fuel : nat) :
  forall (buf : Z -> Z) (word : Z),
    confined true is_read_call (read_words fuel a s buf word).
Proof.
  induction fuel as [|fuel IH]; intros buf word; cbn [read_words];
    destruct (word <? s); try apply confined_ret;
    [apply confined_out_of_fuel|].
  apply confined_bind; [now apply confined_hal|]. intros w. apply IH.
Qed.

Lemma confined_flash_write (fuel : nat) (cfg : flash_cfg) (a s : Z)
    (p_data : option (Z -> Z)) :
  confined true is_program_call (flash_write fuel cfg a s p_data).
Proof.
  unfold flash_write.
  apply confined_bind; [apply confined_get_is_init|]. intros is_init.
  do 3 (apply confined_bind; [apply confined_assert|]; intros _).
  destruct (is_init && flash_region_check cfg a s && is_non_null p_data);
    [apply confined_write_dwords | apply confined_ret].
Qed.

Lemma confined_flash_read (fuel : nat) (cfg : flash_cfg) (a s : Z)
    (p_data : option (Z -> Z)) :
  confined true is_read_call (flash_read fuel cfg a s p_data).
Proof.
  unfold flash_read.
  apply confined_bind; [apply confined_get_is_init|]. intros is_init.
  do 3 (apply confined_bind; [apply confined_assert|]; intros _).
  destruct (is_init && flash_region_check cfg a s && is_non_null p_data);
    [|apply confined_ret].
  apply confined_bind; [apply confined_read_words|]. intros buf.
  apply confined_ret.
Qed.

Lemma confined_wait_while_busy (keep : bool) (fuel : nat) :
  confined keep is_control_call (wait_while_busy fuel).
Proof.
  induction fuel as [|fuel IH]; cbn [wait_while_busy];
    [apply confined_out_of_fuel|].
  apply confined_bind; [now apply confined_hal|]. intros flag.
  destruct (flag =? RESET); [apply confined_ret | apply IH].
Qed.

(** X15: however they end, flash_erase, flash_write and flash_read leave
    the initialisation flag as it was and only add HAL calls of their own
    kind to what the hardware has seen: flash_erase only erases, flash_write
    only programs double words, flash_read only reads words. *)
Theorem entry_points_confined (fuel : nat) (cfg : flash_cfg) (a s : Z)
    (p_data : option (Z -> Z)) (st st' : flash_state) :
  (outcome_state (flash_erase cfg a s st) = Some st' ->
   gb_is_init st' = gb_is_init st /\
   exists calls : list hal_call,
     hal_trace st' = hal_trace st ++ calls /\ Forall is_erase_call calls) /\
  (outcome_state (flash_write fuel cfg a s p_data st) = Some st' ->
   gb_is_init st' = gb_is_init st /\
   exists calls : list hal_call,
     hal_trace st' = hal_trace st ++ calls /\ Forall is_program_call calls) /\
  (outcome_state (flash_read fuel cfg a s p_data st) = Some st' ->
   gb_is_init st' = gb_is_init st /\
   exists calls : list hal_call,
     hal_trace st' = hal_trace st ++ calls /\ Forall is_read_call calls).
Proof.
  split; [|split]; intros Hend.
  - destruct (confined_flash_erase cfg a s st st' Hend) as [Hflag Hcalls].
    split; [now apply Hflag | exact Hcalls].
  - destruct (confined_flash_write fuel cfg a s p_data st st' Hend)
      as [Hflag Hcalls].
    split; [now apply Hflag | exact Hcalls].
  - destruct (confined_flash_read fuel cfg a s p_data st st' Hend)
      as [Hflag Hcalls].
    split; [now apply Hflag | exact Hcalls].
Qed.

(** X16: flash_init, flash_deinit and flash_is_init never erase, program or
    read the flash: whatever the hardware answers, flash_init and
    flash_deinit only add clock, busy-flag, lock and unlock calls, and
    flash_is_init adds no call and leaves the whole state as it was. *)
Theorem lifecycle_confined (fuel : nat) (cfg : flash_cfg)
    (p_is_init : option bool) (st st' : flash_state) :
  (outcome_state (flash_init fuel cfg st) = Some st' ->
   exists calls : list hal_call,
     hal_trace st' = hal_trace st ++ calls /\ Forall is_control_call calls) /\
  (outcome_state (flash_deinit cfg st) = Some st' ->
   exists calls : list hal_call,
     hal_trace st' = hal_trace st ++ calls /\ Forall is_control_call calls) /\
  (outcome_state (flash_is_init cfg p_is_init st) = Some st' -> st' = st).
Proof.
  split; [|split]; intros Hend.
  - enough (Hc : confined false is_control_call (flash_init fuel cfg))
      by (now destruct (Hc st st' Hend)).
    unfold flash_init.
    apply confined_bind; [apply confined_get_is_init|]. intros is_init.
    destruct (negb is_init); [|apply confined_ret].
    apply confined_bind; [now apply confined_hal|]. intros _.
    apply confined_bind; [apply confined_wait_while_busy|]. intros _.
    apply confined_bind; [now apply confined_hal|]. intros r.
    destruct (r =? HAL_OK); [|apply confined_ret].
    apply confined_bind; [apply confined_set_is_init|]. intros _.
    apply confined_ret.
  - enough (Hc : confined false is_control_call (flash_deinit cfg))
      by (now destruct (Hc st st' Hend)).
    unfold flash_deinit.
    apply confined_bind; [apply confined_get_is_init|]. intros is_init.
    destruct is_init; [|apply confined_ret].
    apply confined_bind; [now apply confined_hal|]. intros r.
    destruct (r =? HAL_OK); [|apply confined_ret].
    apply confined_bind; [now apply confined_hal|]. intros _.
    apply confined_bind; [apply confined_set_is_init|]. intros _.
    apply confined_ret.
  - unfold flash_is_init, bind, FLASH_ASSERT, get_is_init, ret in Hend.
    destruct (FLASH_CFG_ASSERT_EN cfg && negb (is_non_null p_is_init));
      [cbn in Hend; congruence|].
    destruct p_is_init; cbn in Hend; congruence.
Qed.

End Confinement.

Lemma entry_points_confined_witness :
  exists st',
    outcome_state
      (flash_write 2 cfg_single 134344704 12 (Some (fun _ => 1))
         (scripted_state true [])) = Some st' /\
    gb_is_init st' = true /\
    exists calls : list hal_call,
      hal_trace st' = calls /\ Forall is_program_call calls.
Proof.
  eexists. split; [reflexivity|].
  destruct (proj1 (proj2 (@entry_points_confined scripted_hal 2%nat
                            cfg_single 134344704 12 (Some (fun _ => 1))
                            (scripted_state true []) _))
              eq_refl)
    as (Hflag & calls & Htrace & Hall).
  split; [exact Hflag|]. exists calls. split; [exact Htrace | exact Hall].
Defined.

Lemma lifecycle_confined_witness :
  exists st',
    outcome_state (flash_init 3 cfg_single (scripted_state false [0; 1; 0; 0]))
      = Some st' /\
    exists calls : list hal_call,
      hal_trace st' = calls /\ Forall is_control_call calls.
Proof.
  eexists. split; [reflexivity|].
  destruct (proj1 (@lifecycle_confined scripted_hal 3%nat cfg_single None
                     (scripted_state false [0; 1; 0; 0]) _)
              eq_refl)
    as (calls & Htrace & Hall).
  exists calls. split; [exact Htrace | exact Hall].
Defined.

(** ** What a write programs *)

Section WriteRuns.

Context {H : FlashHal}.

Lemma hw_run_cons (c : hal_call) (calls : list hal_call) (h : hw) :
  hw_run (c :: calls) h = hw_run calls (snd (hal_exec c h)).
Proof. reflexivity. Qed.

Lemma program_answer_first (a : Z) (data : Z -> Z) (h : hw) (j : nat) :
  program_answer a data h j 0 = fst (hal_exec (program_call a data j) h).
Proof. unfold program_answer. now rewrite Nat.add_0_r. Qed.

Lemma program_answer_next (a : Z) (data : Z -> Z) (h : hw) (j i : nat) :
  program_answer a data h j (S i) =
  program_answer a data (snd (hal_exec (program_call a data j) h)) (S j) i.
Proof.
  unfold program_answer, program_calls. cbn [seq map].
  rewrite hw_run_cons. now rewrite Nat.add_succ_r.
Qed.

(** The loop of flash_write from double word [j] on: it programs double
    words [j], [j + 1], ... and stops after the last one or at the first
    one that the HAL refuses. *)
Lemma write_dwords_run (cfg : flash_cfg) (a s : Z) (data : Z -> Z)
    (status : Z) (fuel : nat) :
  forall (j : nat) (st : flash_state) (r : Z) (st' : flash_state),
    s + 7 <= UINT32_MAX ->
    write_dwords fuel cfg a s data (8 * Z.of_nat j) status st = Done r st' ->
    exists m : nat,
      hal_trace st' = hal_trace st ++ program_calls a data j m /\
      ((r = status /\ s <= 8 * Z.of_nat (j + m) /\
        forall i : nat, (i < m)%nat ->
          program_answer a data (hw_state st) j i = HAL_OK /\
          8 * Z.of_nat (j + i) < s)
       \/
       (r = eFLASH_ERROR cfg /\
        exists m' : nat,
          m = S m' /\
          (forall i : nat, (i < m')%nat ->
             program_answer a data (hw_state st) j i = HAL_OK) /\
          program_answer a data (hw_state st) j m' <> HAL_OK /\
          8 * Z.of_nat (j + m') < s)).
Proof.
  induction fuel as [|fuel IH]; intros j st r st' Hfit Hrun;
    cbn [write_dwords] in Hrun;
    destruct (Z.ltb_spec (8 * Z.of_nat j) s) as [Hlt | Hge];
    try discriminate.
  - unfold ret in Hrun. injection Hrun as <- <-.
    exists 0%nat. split; [cbn; now rewrite app_nil_r|].
    left. split; [reflexivity|]. split; [lia|]. intros i Hi. lia.
  - unfold bind, hal in Hrun.
    change (HAL_FLASH_Program FLASH_TYPEPROGRAM_DOUBLEWORD
              (add32 a (8 * Z.of_nat j)) (load_le data (8 * Z.of_nat j) 8))
      with (program_call a data j) in Hrun.
    set (c := program_call a data j) in *.
    destruct (Z.eqb_spec (hal_answer c st) HAL_OK) as [Hok | Hko].
    + assert (Hnext : add32 (8 * Z.of_nat j) 8 = 8 * Z.of_nat (S j)).
      { unfold add32. rewrite u32_small; unfold uint32 in *; lia. }
      rewrite Hnext in Hrun.
      apply IH in Hrun; [|assumption].
      destruct Hrun as (m & Htrace & Hcase).
      exists (S m). split.
      { rewrite Htrace. cbn [hal_next hal_trace].
        rewrite <- app_assoc. reflexivity. }
      cbn [hal_next hw_state] in Hcase.
      destruct Hcase as [(Hr & Hend & Hall) | (Hr & m' & Hm & Hall & Hbad & Hin)].
      * left. split; [assumption|]. split; [lia|].
        intros [|i] Hi.
        -- rewrite program_answer_first. split; [exact Hok | lia].
        -- rewrite program_answer_next.
           destruct (Hall i ltac:(lia)) as [Hans Hpos].
           split; [exact Hans | lia].
      * right. split; [assumption|]. exists (S m').
        split; [now rewrite Hm|]. split; [|split].
        -- intros [|i] Hi.
           ++ rewrite program_answer_first. exact Hok.
           ++ rewrite program_answer_next. apply Hall. lia.
        -- rewrite program_answer_next. exact Hbad.
        -- lia.
    + unfold ret in Hrun. injection Hrun as <- <-.
      exists 1%nat. split; [reflexivity|].
      right. split; [reflexivity|]. exists 0%nat.
      split; [reflexivity|]. split; [intros i Hi; lia|].
      split; [now rewrite program_answer_first | lia].
  - unfold ret in Hrun. injection Hrun as <- <-.
    exists 0%nat. split; [cbn; now rewrite app_nil_r|].
    left. split; [reflexivity|]. split; [lia|]. intros i Hi. lia.
Qed.

(** With one unit of fuel per double word still to program, the loop of
    flash_write returns. *)
Lemma write_dwords_returns (cfg : flash_cfg) (a s : Z) (data : Z -> Z)
    (status : Z) (fuel : nat) :
  forall (j : nat) (st : flash_state),
    s + 7 <= UINT32_MAX ->
    s <= 8 * Z.of_nat (j + fuel) ->
    exists (r : Z) (st' : flash_state),
      write_dwords fuel cfg a s data (8 * Z.of_nat j) status st = Done r st'.
Proof.
  induction fuel as [|fuel IH]; intros j st Hfit Hfuel;
    cbn [write_dwords];
    destruct (Z.ltb_spec (8 * Z.of_nat j) s) as [Hlt | Hge];
    try (eexists _, _; reflexivity); [lia|].
  unfold bind, hal.
  destruct (hal_answer _ st =? HAL_OK); [|eexists _, _; reflexivity].
  assert (Hnext : add32 (8 * Z.of_nat j) 8 = 8 * Z.of_nat (S j)).
  { unfold add32. rewrite u32_small; unfold uint32 in *; lia. }
  rewrite Hnext. apply IH; [assumption | lia].
Qed.

End WriteRuns.

Section WriteResult.

Context {H : FlashHal}.

(** X17: an accepted flash_write of at most 0xFFFFFFF8 bytes, given one
    unit of fuel per double word, returns.  It programs the double words at
    addr, addr + 8, ... in ascending order, each built from the 8 bytes of
    p_data at the same offset.  When the HAL accepts them all it programs
    ceil(size / 8) double words (so the last one is whole even when size is
    not a multiple of 8) and returns eFLASH_OK; otherwise it stops right
    after the first double word that the HAL refuses and returns
    eFLASH_ERROR. *)
Theorem flash_write_programs (cfg : flash_cfg) (fuel : nat) (a s : Z)
    (data : Z -> Z) (st : flash_state) :
  gb_is_init st = true ->
  flash_region_check cfg a s = true ->
  0 <= s -> s + 7 <= UINT32_MAX -> s <= 8 * Z.of_nat fuel ->
  exists (r : Z) (st' : flash_state) (m : nat),
    flash_write fuel cfg a s (Some data) st = Done r st' /\
    hal_trace st' = hal_trace st ++ program_calls a data 0 m /\
    ((r = eFLASH_OK cfg /\ Z.of_nat m = (s + 7) / 8 /\
      forall i : nat, (i < m)%nat ->
        program_answer a data (hw_state st) 0 i = HAL_OK)
     \/
     (r = eFLASH_ERROR cfg /\
      exists m' : nat,
        m = S m' /\ Z.of_nat m <= (s + 7) / 8 /\
        (forall i : nat, (i < m')%nat ->
           program_answer a data (hw_state st) 0 i = HAL_OK) /\
        program_answer a data (hw_state st) 0 m' <> HAL_OK)).
Proof.
  intros Hinit Hchk Hs0 Hfit Hfuel.
  assert (Hbody : flash_write fuel cfg a s (Some data) st =
                  write_dwords fuel cfg a s data (8 * Z.of_nat 0)
                    (eFLASH_OK cfg) st).
  { unfold flash_write, bind, get_is_init. rewrite Hinit, Hchk.
    rewrite !FLASH_ASSERT_pass by (now right). reflexivity. }
  destruct (write_dwords_returns cfg a s data (eFLASH_OK cfg) fuel 0 st
              Hfit ltac:(cbn [Nat.add]; lia)) as (r & st' & Hrun).
  exists r, st'.
  destruct (write_dwords_run cfg a s data (eFLASH_OK cfg) fuel 0 st r st'
              Hfit Hrun) as (m & Htrace & Hcase).
  exists m. split; [now rewrite Hbody|]. split; [exact Htrace|].
  pose proof (Z.div_mod (s + 7) 8 ltac:(lia)) as Hdiv.
  pose proof (Z.mod_pos_bound (s + 7) 8 ltac:(lia)) as Hmod.
  destruct Hcase as [(Hr & Hend & Hall) | (Hr & m' & Hm & Hall & Hbad & Hin)].
  - left. split; [assumption|]. split.
    + destruct m as [|k]; cbn [Nat.add] in Hend.
      * lia.
      * destruct (Hall k ltac:(lia)) as [_ Hk]. cbn [Nat.add] in Hk. lia.
    + intros i Hi. now apply Hall.
  - right. split; [assumption|]. exists m'.
    split; [assumption|]. split; [|split; assumption].
    cbn [Nat.add] in Hin. lia.
Qed.

End WriteResult.

Lemma flash_write_programs_witness :
  exists (r : Z) st' (m : nat),
    flash_write 2 cfg_single 134344704 12 (Some (fun _ => 1))
      (scripted_state true []) = Done r st' /\
    hal_trace st' = program_calls 134344704 (fun _ => 1) 0 m.
Proof.
  destruct (@flash_write_programs scripted_hal cfg_single 2%nat
              134344704 12 (fun _ => 1) (scripted_state true [])
              eq_refl eq_refl ltac:(lia)
              ltac:(unfold UINT32_MAX; lia) ltac:(lia))
    as (r & st' & m & Hrun & Htrace & _).
  exists r, st', m. split; [exact Hrun | exact Htrace].
Defined.

(** ** What a read returns *)

Section ReadRuns.

Context {H : FlashHal}.

Lemma read_answer_first (a : Z) (h : hw) (j : nat) :
  read_answer a h j 0 = fst (hal_exec (read_call a j) h).
Proof. unfold read_answer. now rewrite Nat.add_0_r. Qed.

Lemma read_answer_next (a : Z) (h : hw) (j i : nat) :
  read_answer a h j (S i) =
  read_answer a (snd (hal_exec (read_call a j) h)) (S j) i.
Proof.
  unfold read_answer, read_calls. cbn [seq map].
  rewrite hw_run_cons. now rewrite Nat.add_succ_r.
Qed.

Lemma store_le4_inside (buf : Z -> Z) (off v b : Z) :
  0 <= b < 4 ->
  store_le4 buf off v (off + b) = (v / 256 ^ b) mod 256.
Proof.
  intros Hb. unfold store_le4.
  destruct (Z.leb_spec off (off + b)); [|lia].
  destruct (Z.ltb_spec (off + b) (off + 4)); [|lia].
  cbn [andb]. now replace (off + b - off) with b by lia.
Qed.

Lemma store_le4_outside (buf : Z -> Z) (off v x : Z) :
  x < off \/ off + 4 <= x -> store_le4 buf off v x = buf x.
Proof.
  intros Hx. unfold store_le4.
  destruct (Z.leb_spec off x); destruct (Z.ltb_spec x (off + 4));
    cbn [andb]; (reflexivity || lia).
Qed.

(** The loop of flash_read from word [j] on: it reads words [j], [j + 1],
    ... up to the end of the range and stores each one, little endian, at
    four times its number in the buffer. *)
Lemma read_words_run (a s : Z) (fuel : nat) :
  forall (j : nat) (st : flash_state) (buf buf' : Z -> Z)
         (st' : flash_state),
    s + 3 <= UINT32_MAX ->
    read_words fuel a s buf (4 * Z.of_nat j) st = Done buf' st' ->
    exists m : nat,
      hal_trace st' = hal_trace st ++ read_calls a j m /\
      s <= 4 * Z.of_nat (j + m) /\
      (forall i : nat, (i < m)%nat -> 4 * Z.of_nat (j + i) < s) /\
      (forall (i : nat) (b : Z), (i < m)%nat -> 0 <= b < 4 ->
         buf' (4 * Z.of_nat (j + i) + b)
         = (read_answer a (hw_state st) j i / 256 ^ b) mod 256) /\
      (forall x : Z,
         x < 4 * Z.of_nat j \/ 4 * Z.of_nat (j + m) <= x -> buf' x = buf x).
Proof.
  induction fuel as [|fuel IH]; intros j st buf buf' st' Hfit Hrun;
    cbn [read_words] in Hrun;
    destruct (Z.ltb_spec (4 * Z.of_nat j) s) as [Hlt | Hge];
    try discriminate.
  - unfold ret in Hrun. injection Hrun as <- <-.
    exists 0%nat. split; [cbn; now rewrite app_nil_r|].
    split; [lia|]. split; [intros i Hi; lia|].
    split; [intros i b Hi; lia | reflexivity].
  - unfold bind, hal in Hrun.
    change (FLASH_READ_WORD (add32 a (4 * Z.of_nat j)))
      with (read_call a j) in Hrun.
    set (c := read_call a j) in *.
    assert (Hnext : add32 (4 * Z.of_nat j) 4 = 4 * Z.of_nat (S j)).
    { unfold add32. rewrite u32_small; unfold uint32 in *; lia. }
    rewrite Hnext in Hrun.
    apply IH in Hrun; [|assumption].
    destruct Hrun as (m & Htrace & Hend & Hin & Hbytes & Hout).
    cbn [hal_next hw_state] in Hbytes.
    exists (S m). split.
    { rewrite Htrace. cbn [hal_next hal_trace].
      rewrite <- app_assoc. reflexivity. }
    split; [lia|]. split; [|split].
    + intros [|i] Hi; [lia|].
      pose proof (Hin i ltac:(lia)). lia.
    + intros [|i] b Hi Hb.
      * rewrite Nat.add_0_r, Hout by lia.
        rewrite store_le4_inside by assumption.
        now rewrite read_answer_first.
      * rewrite read_answer_next, <- Hbytes by (assumption || lia).
        f_equal. lia.
    + intros x Hx. rewrite Hout by lia.
      apply store_le4_outside. lia.
  - unfold ret in Hrun. injection Hrun as <- <-.
    exists 0%nat. split; [cbn; now rewrite app_nil_r|].
    split; [lia|]. split; [intros i Hi; lia|].
    split; [intros i b Hi; lia | reflexivity].
Qed.

Lemma read_words_returns (a s : Z) (fuel : nat) :
  forall (j : nat) (st : flash_state) (buf : Z -> Z),
    s + 3 <= UINT32_MAX ->
    s <= 4 * Z.of_nat (j + fuel) ->
    exists (buf' : Z -> Z) (st' : flash_state),
      read_words fuel a s buf (4 * Z.of_nat j) st = Done buf' st'.
Proof.
  induction fuel as [|fuel IH]; intros j st buf Hfit Hfuel;
    cbn [read_words];
    destruct (Z.ltb_spec (4 * Z.of_nat j) s) as [Hlt | Hge];
    try (eexists _, _; reflexivity); [lia|].
  unfold bind, hal.
  assert (Hnext : add32 (4 * Z.of_nat j) 4 = 4 * Z.of_nat (S j)).
  { unfold add32. rewrite u32_small; unfold uint32 in *; lia. }
  rewrite Hnext. apply IH; [assumption | lia].
Qed.

(** X18: an accepted flash_read of at most 0xFFFFFFFC bytes, given one unit
    of fuel per word, always returns eFLASH_OK.  It reads the
    ceil(size / 4) words at addr, addr + 4, ... in ascending order and
    stores word k, little endian, in bytes 4k .. 4k + 3 of the buffer; the
    buffer is unchanged from byte 4 * ceil(size / 4) on, so when size is not
    a multiple of 4 up to three bytes after the first size bytes are
    overwritten. *)
Theorem flash_read_fills (cfg : flash_cfg) (fuel : nat) (a s : Z)
    (buf : Z -> Z) (st : flash_state) :
  gb_is_init st = true ->
  flash_region_check cfg a s = true ->
  0 <= s -> s + 3 <= UINT32_MAX -> s <= 4 * Z.of_nat fuel ->
  exists (buf' : Z -> Z) (st' : flash_state) (n : nat),
    flash_read fuel cfg a s (Some buf) st
      = Done (eFLASH_OK cfg, Some buf') st' /\
    Z.of_nat n = (s + 3) / 4 /\
    hal_trace st' = hal_trace st ++ read_calls a 0 n /\
    (forall (k : nat) (b : Z), (k < n)%nat -> 0 <= b < 4 ->
       buf' (4 * Z.of_nat k + b)
       = (read_answer a (hw_state st) 0 k / 256 ^ b) mod 256) /\
    (forall x : Z, x < 0 \/ 4 * Z.of_nat n <= x -> buf' x = buf x).
Proof.
  intros Hinit Hchk Hs0 Hfit Hfuel.
  destruct (read_words_returns a s fuel 0 st buf Hfit
              ltac:(cbn [Nat.add]; lia)) as (buf' & st' & Hrun).
  destruct (read_words_run a s fuel 0 st buf buf' st' Hfit Hrun)
    as (n & Htrace & Hend & Hin & Hbytes & Hout).
  exists buf', st', n. split; [|split; [|split; [exact Htrace|split]]].
  - unfold flash_read, bind, get_is_init. rewrite Hinit, Hchk.
    rewrite !FLASH_ASSERT_pass by (now right).
    cbn [andb is_non_null deref].
    change 0 with (4 * Z.of_nat 0) at 1. now rewrite Hrun.
  - pose proof (Z.div_mod (s + 3) 4 ltac:(lia)) as Hdiv.
    pose proof (Z.mod_pos_bound (s + 3) 4 ltac:(lia)) as Hmod.
    cbn [Nat.add] in Hend.
    destruct n as [|k]; [lia|].
    pose proof (Hin k ltac:(lia)) as Hk. cbn [Nat.add] in Hk. lia.
  - intros k b Hk Hb. exact (Hbytes k b Hk Hb).
  - intros x Hx. apply Hout. cbn [Nat.add]. lia.
Qed.

End ReadRuns.

Lemma flash_read_fills_witness :
  exists (buf' : Z -> Z) st' (n : nat),
    flash_read 2 cfg_single 134344704 6 (Some (fun _ => 170))
      (scripted_state true [67305985; 134678021])
      = Done (eFLASH_OK cfg_single, Some buf') st' /\
    Z.of_nat n = 2 /\
    buf' 8 = 170.
Proof.
  destruct (@flash_read_fills scripted_hal cfg_single 2%nat
              134344704 6 (fun _ => 170)
              (scripted_state true [67305985; 134678021])
              eq_refl eq_refl ltac:(lia)
              ltac:(unfold UINT32_MAX; lia) ltac:(lia))
    as (buf' & st' & n & Hrun & Hn & _ & _ & Hout).
  exists buf', st', n. split; [exact Hrun|]. split; [exact Hn|].
  apply Hout. right. change ((6 + 3) / 4) with 2 in Hn. lia.
Defined.

(** ** Erasing whole banks *)

Lemma setup_bank_erase_mass (cfg : flash_cfg) (bank : Z)
    (bd : flash_bank_data_t) (fe : FLASH_EraseInitTypeDef) :
  flash_count_page cfg (addr bd) (size bd) = FLASH_PAGE_NB cfg ->
  setup_bank_erase cfg bank bd fe =
  {| TypeErase := FLASH_TYPEERASE_MASSERASE;
     Banks := if bank =? eFLASH_BANK_1 then FLASH_BANK_1 else FLASH_BANK_2;
     Page := Page fe; NbPages := NbPages fe |}.
Proof.
  intros Hn. unfold setup_bank_erase. rewrite Hn, Z.eqb_refl. reflexivity.
Qed.

(** The pages of an aligned block of [n] pages. *)
Lemma flash_count_page_block (cfg : flash_cfg) (a n : Z) :
  let P := FLASH_CFG_PAGE_SIZE_BYTE cfg in
  0 < P -> 0 <= a -> a mod P = 0 -> 0 < n ->
  n * P <= UINT32_MAX -> a + n * P - 1 <= UINT32_MAX ->
  flash_count_page cfg a (n * P) = n.
Proof.
  intros P HP Ha Hal Hn Hsz Hfit.
  rewrite flash_count_page_exact
    by (assumption || (unfold uint32, UINT32_MAX in *; nia)).
  fold P.
  pose proof (Z.div_mod a P ltac:(lia)) as Ea. rewrite Hal in Ea.
  assert (Hend : (a + n * P - 1) / P = a / P + n - 1).
  { symmetry. apply (Z.div_unique _ P _ (P - 1)); [lia|nia]. }
  rewrite Hend. lia.
Qed.

Section WholeBanks.

Context {H : FlashHal}.

(** X19: in the dual-bank build, with page-aligned banks of FLASH_PAGE_NB
    pages each and bank 2 right after bank 1, erasing the whole of both
    banks submits two mass erases and no page erase: one for bank 1, then
    one for bank 2. *)
Theorem erase_both_banks_mass_erase (cfg : flash_cfg) (st : flash_state) :
  let P := FLASH_CFG_PAGE_SIZE_BYTE cfg in
  let N := FLASH_PAGE_NB cfg in
  let B1 := FLASH_CFG_BANK1_START_ADDR cfg in
  let B := FLASH_CFG_BANK2_START_ADDR cfg in
  0 < P -> 0 < N -> 0 <= B1 -> B1 mod P = 0 ->
  B = B1 + N * P -> B + N * P <= UINT32_MAX ->
  exists (status : Z) (st' : flash_state),
    flash_erase_dual_bank cfg B1 (2 * N * P) st = Done status st' /\
    hal_trace st' =
      hal_trace st
      ++ [ HAL_FLASHEx_Erase
             {| TypeErase := FLASH_TYPEERASE_MASSERASE;
                Banks := FLASH_BANK_1; Page := 0; NbPages := 0 |};
           HAL_FLASHEx_Erase
             {| TypeErase := FLASH_TYPEERASE_MASSERASE;
                Banks := FLASH_BANK_2; Page := 0; NbPages := 0 |} ].
Proof.
  intros P N B1 B HP HN HB1 Hal HB Hfit.
  subst P N B1 B.
  set (P := FLASH_CFG_PAGE_SIZE_BYTE cfg) in *.
  set (N := FLASH_PAGE_NB cfg) in *.
  set (B1 := FLASH_CFG_BANK1_START_ADDR cfg) in *.
  assert (HNP : 0 < N * P) by nia.
  assert (HBm : FLASH_CFG_BANK2_START_ADDR cfg mod P = 0).
  { rewrite HB, Z.mod_add by lia. exact Hal. }
  assert (Hsplit : split_bank_data cfg B1 (2 * N * P) =
            [ {| addr := B1; size := N * P |};
              {| addr := FLASH_CFG_BANK2_START_ADDR cfg; size := N * P |} ]).
  { rewrite split_bank_data_across;
      try (unfold uint32, UINT32_MAX in *; lia).
    replace (FLASH_CFG_BANK2_START_ADDR cfg - B1) with (N * P) by lia.
    replace (B1 + 2 * N * P - FLASH_CFG_BANK2_START_ADDR cfg)
      with (N * P) by lia.
    reflexivity. }
  assert (Hn1 : flash_count_page cfg B1 (N * P) = N).
  { apply flash_count_page_block; try assumption; fold P; lia. }
  assert (Hn2 : flash_count_page cfg (FLASH_CFG_BANK2_START_ADDR cfg) (N * P)
                = N).
  { apply flash_count_page_block; try assumption; fold P; lia. }
  pose proof (erase_dual_bank_both cfg B1 (2 * N * P) _ _ st Hsplit
                ltac:(cbn [size]; lia) ltac:(cbn [size]; lia)
                ltac:(right; cbn [addr size]; fold N; lia)
                ltac:(right; cbn [addr size]; fold N; lia)) as Hrun.
  cbv zeta in Hrun.
  rewrite !setup_bank_erase_mass in Hrun by (cbn [addr size]; assumption).
  eexists _, _. split; [exact Hrun|].
  cbn. now rewrite <- app_assoc.
Qed.

End WholeBanks.

Lemma erase_both_banks_mass_erase_witness :
  exists (status : Z) st',
    flash_erase_dual_bank cfg_dual 134217728 524288 (scripted_state true [])
      = Done status st' /\
    hal_trace st' =
      [ HAL_FLASHEx_Erase
          {| TypeErase := FLASH_TYPEERASE_MASSERASE;
             Banks := FLASH_BANK_1; Page := 0; NbPages := 0 |};
        HAL_FLASHEx_Erase
          {| TypeErase := FLASH_TYPEERASE_MASSERASE;
             Banks := FLASH_BANK_2; Page := 0; NbPages := 0 |} ].
Proof.
  destruct (@erase_both_banks_mass_erase scripted_hal cfg_dual
              (scripted_state true [])
              ltac:(simpl; lia) ltac:(simpl; lia) ltac:(simpl; lia)
              ltac:(reflexivity) ltac:(reflexivity)
              ltac:(unfold UINT32_MAX; simpl; lia))
    as (status & st' & Hrun & Htrace).
  exists status, st'. split; [exact Hrun | exact Htrace].
Defined.
